(** * bridget-portfolio: the Eleventy build configuration and the
      quality-gates bootstrap script

    The repository holds three variants of the Eleventy configuration
    function and one bash script ([set -e]) that installs the development
    tools, writes their configuration files, merges command aliases into
    [package.json] with an inline Node program, installs a Husky pre-commit
    hook and writes a GitHub Actions workflow.

    Modelling choices, fixed once for the whole development:
    - the working tree is a finite map from paths to regular files (content
      and executable bit) and directories; the shell's own writes
      ([cat > file], [mkdir -p], [chmod +x]) fail with status 1 when a
      directory or a regular file is in the way, and [set -e] then ends the
      script; permissions, disk space and the like are not modelled;
    - an external command ([npm], [npx husky], a workflow action) is an
      oracle from its command line and the tree to an exit status and a new
      tree; every invocation is logged with its status, and so is every
      file operation of the shell;
    - [JSON.parse] and [JSON.stringify] are oracles of the same machine; the
      Node program between them is modelled statement by statement on the
      values [JSON.parse] can return. *)

From Stdlib Require Import ZArith String Ascii List Bool.
From Stdlib Require Import Floats.SpecFloat.
From stdpp Require Import base gmap strings.

Set Warnings "-register-all".

Open Scope string_scope.
Open Scope list_scope.

(** ** Text helpers *)

(** The double-quote character, and a word wrapped in double quotes. *)
Definition dq : string := String (ascii_of_nat 34) EmptyString.
Definition q (s : string) : string := dq +:+ s +:+ dq.

(** The newline character; a here-document is its lines, each one ended by
    a newline. *)
Definition nl : string := String (ascii_of_nat 10) EmptyString.
Definition heredoc (lines : list string) : string :=
  fold_right (fun l rest => l +:+ nl +:+ rest) "" lines.

(** [occurs_in needle hay]: [needle] is a substring of [hay]. *)
Definition occurs_in (needle hay : string) : bool :=
  match String.index 0 needle hay with Some _ => true | None => false end.

(** Path segments, split at the slash. *)
Fixpoint segments_from (cur : string) (p : string) : list string :=
  match p with
  | EmptyString => [cur]
  | String c rest =>
      if Ascii.eqb c "/"%char then cur :: segments_from "" rest
      else segments_from (cur +:+ String c EmptyString) rest
  end.
Definition segments (p : string) : list string := segments_from "" p.

(** ** The Eleventy configuration (src/eleventy.config.js and its variants) *)

Module Eleventy.

(** The [eleventyConfig] object as far as the configuration functions use
    it: the passthrough-copy globs registered so far, in order. *)
Record eleventyConfig := { passthrough : list string }.

Definition addPassthroughCopy (glob : string) (c : eleventyConfig)
  : eleventyConfig :=
  {| passthrough := passthrough c ++ [glob] |}.

Record dirs := {
  input : string;
  includes : string;
  layouts : string;
  output : string;
}.

Record options := {
  dir : dirs;
  templateFormats : list string;
  pathPrefix : option string;
}.

(** The [dir] object, written out identically in the three variants. *)
Definition dir_literal : dirs :=
  {| input := "src";
     includes := "_includes";
     layouts := "_includes/layouts";
     output := "_site" |}.

(** Variant with [style.css], [*.png] and [CNAME] passed through. *)
Definition config_with_cname (c : eleventyConfig) : eleventyConfig * options :=
  let c := addPassthroughCopy "src/style.css" c in
  let c := addPassthroughCopy "src/*.png" c in
  let c := addPassthroughCopy "src/CNAME" c in
  (c, {| dir := dir_literal;
         templateFormats := ["njk"; "md"; "html"];
         pathPrefix := None |}).

(** Variant with [style.css] only. *)
Definition config_minimal (c : eleventyConfig) : eleventyConfig * options :=
  let c := addPassthroughCopy "src/style.css" c in
  (c, {| dir := dir_literal;
         templateFormats := ["njk"; "md"; "html"];
         pathPrefix := None |}).

(** Variant with [style.css] and [*.png] and a path prefix. *)
Definition config_with_prefix (c : eleventyConfig) : eleventyConfig * options :=
  let c := addPassthroughCopy "src/style.css" c in
  let c := addPassthroughCopy "src/*.png" c in
  (c, {| dir := dir_literal;
         templateFormats := ["njk"; "md"; "html"];
         pathPrefix := Some "/bridget-portfolio/" |}).

Definition variants : list (eleventyConfig -> eleventyConfig * options) :=
  [config_with_cname; config_minimal; config_with_prefix].

(** A path is relative when it does not start at the root. *)
Definition is_relative (p : string) : bool := negb (String.prefix "/" p).

(** No segment of the path climbs out of its base directory. *)
Definition stays_below (p : string) : bool :=
  forallb (fun s => negb (String.eqb s "..")) (segments p).

(** [child] lies strictly below the directory [parent]. *)
Definition nested_under (parent child : string) : bool :=
  String.prefix (parent +:+ "/") child
  && negb (String.eqb child (parent +:+ "/")).

(** Resolution of a relative directory against the input directory. *)
Definition resolve (base rel : string) : string := base +:+ "/" +:+ rel.

End Eleventy.

(** ** The Node program of step 7 *)

Module Js.

(** The values [JSON.parse] returns, as the program sees them in memory:
    numbers are doubles, an object is its own properties in enumeration
    order, and an array can carry named properties next to its elements
    (an assignment [arr.name = v] creates one; [JSON.stringify] does not
    print them).  [VUndefined] is the result of reading a property that
    is not there. *)
Inductive value :=
| VUndefined
| VNull
| VBool (b : bool)
| VNum (x : spec_float)
| VStr (s : string)
| VArr (elems : list value) (named : list (string * value))
| VObj (props : list (string * value)).

(** ToBoolean. *)
Definition truthy (v : value) : bool :=
  match v with
  | VUndefined | VNull => false
  | VBool b => b
  | VNum (S754_zero _) | VNum S754_nan => false
  | VNum _ => true
  | VStr s => negb (String.eqb s "")
  | VArr _ _ | VObj _ => true
  end.

(** [a || b]. *)
Definition or_default (a b : value) : value := if truthy a then a else b.

(** Own-property lookup and assignment on a property list: assignment
    replaces the value in place, or appends a new property. *)
Fixpoint own (k : string) (ps : list (string * value)) : option value :=
  match ps with
  | [] => None
  | (k', v) :: rest => if String.eqb k k' then Some v else own k rest
  end.

Fixpoint put (k : string) (v : value) (ps : list (string * value))
  : list (string * value) :=
  match ps with
  | [] => [(k, v)]
  | (k', v') :: rest =>
      if String.eqb k k' then (k, v) :: rest else (k', v') :: put k v rest
  end.

(** The program either completes or dies of an uncaught [TypeError]
    ([None]). *)
Definition bind {A B} (c : option A) (k : A -> option B) : option B :=
  match c with Some a => k a | None => None end.

Notation "'do' x <- c ; k" := (bind c (fun x => k))
  (at level 10, x name, c at level 100, k at level 200).

(** [o.k], for the property names of this program (none is an array
    index, [length], or a member of a built-in prototype). *)
Definition get (o : value) (k : string) : option value :=
  match o with
  | VUndefined | VNull => None
  | VObj ps => Some (default VUndefined (own k ps))
  | VArr _ named => Some (default VUndefined (own k named))
  | VBool _ | VNum _ | VStr _ => Some VUndefined
  end.

(** [o.k = v] in sloppy mode (the program is read from standard input as
    a CommonJS script): on a primitive the assignment is silently
    dropped. *)
Definition set (o : value) (k : string) (v : value) : option value :=
  match o with
  | VUndefined | VNull => None
  | VObj ps => Some (VObj (put k v ps))
  | VArr es named => Some (VArr es (put k v named))
  | VBool _ | VNum _ | VStr _ => Some o
  end.

(** [pkg.scripts.k]. *)
Definition read_script (pkg : value) (k : string) : option value :=
  do scripts <- get pkg "scripts" ;
  get scripts k.

(** [pkg.scripts.k = v]: the object held by [pkg.scripts] is updated in
    place, so [pkg] sees the new property. *)
Definition write_script (pkg : value) (k : string) (v : value)
  : option value :=
  do scripts <- get pkg "scripts" ;
  do scripts' <- set scripts k v ;
  set pkg "scripts" scripts'.

(** [pkg.scripts = pkg.scripts || {}]. *)
Definition init_scripts (pkg : value) : option value :=
  do cur <- get pkg "scripts" ;
  set pkg "scripts" (or_default cur (VObj [])).

(** [if (!pkg.scripts.k) { pkg.scripts.k = d; }]. *)
Definition set_if_not (k d : string) (pkg : value) : option value :=
  do cur <- read_script pkg k ;
  if negb (truthy cur) then write_script pkg k (VStr d) else Some pkg.

(** [pkg.scripts.k = pkg.scripts.k || d]. *)
Definition set_or (k d : string) (pkg : value) : option value :=
  do cur <- read_script pkg k ;
  write_script pkg k (or_default cur (VStr d)).

Definition prettier_globs : string :=
  q "**/*.{js,jsx,ts,tsx,css,scss,md,json,njk,html}".

(** Lines 138 to 155 of the script: the merge of the command aliases. *)
Definition update_scripts (pkg : value) : option value :=
  do pkg <- init_scripts pkg ;
  do pkg <- set_if_not "dev" "npx eleventy --serve --quiet" pkg ;
  do pkg <- set_if_not "build" "ELEVENTY_ENV=production npx eleventy" pkg ;
  do pkg <- set_or "format" ("prettier --write " +:+ prettier_globs) pkg ;
  do pkg <- set_or "format:check" ("prettier --check " +:+ prettier_globs) pkg ;
  do pkg <- set_or "lint:js" "eslint ." pkg ;
  do pkg <- set_or "lint:css" ("stylelint " +:+ q "src/**/*.css") pkg ;
  do pkg <- set_or "lint" "npm run lint:js && npm run lint:css" pkg ;
  do pkg <- set_or "precommit" "npm run format:check && npm run lint" pkg ;
  do pkg <- set_or "lhci" "lhci autorun" pkg ;
  set_or "prepare" "husky install" pkg.

(** The aliases the program registers, with their default commands. *)
Definition aliases : list string :=
  ["dev"; "build"; "format"; "format:check"; "lint:js"; "lint:css";
   "lint"; "precommit"; "lhci"; "prepare"].

(** What the manifest looks like to the properties below: its top-level
    field [k], and the entry [k] of its [scripts] object ([None] when
    absent). *)
Definition field (pkg : value) (k : string) : option value :=
  match pkg with VObj ps => own k ps | _ => None end.

Definition script_entry (pkg : value) (k : string) : option value :=
  match field pkg "scripts" with
  | Some (VObj ss) => own k ss
  | _ => None
  end.

(** *** The merge in closed form

    The aliases with their default commands, in program order. *)
Definition defaults : list (string * string) :=
  [ ("dev", "npx eleventy --serve --quiet");
    ("build", "ELEVENTY_ENV=production npx eleventy");
    ("format", "prettier --write " +:+ prettier_globs);
    ("format:check", "prettier --check " +:+ prettier_globs);
    ("lint:js", "eslint .");
    ("lint:css", "stylelint " +:+ q "src/**/*.css");
    ("lint", "npm run lint:js && npm run lint:css");
    ("precommit", "npm run format:check && npm run lint");
    ("lhci", "lhci autorun");
    ("prepare", "husky install") ].

(** Values that hold named properties. *)
Definition holder (v : value) : bool :=
  match v with VObj _ | VArr _ _ => true | _ => false end.

(** [get] and [set] away from [null] and [undefined], where they cannot
    throw. *)
Definition prop (o : value) (k : string) : value :=
  match o with
  | VObj ps => default VUndefined (own k ps)
  | VArr _ named => default VUndefined (own k named)
  | _ => VUndefined
  end.

Definition assign (o : value) (k : string) (v : value) : value :=
  match o with
  | VObj ps => VObj (put k v ps)
  | VArr es named => VArr es (put k v named)
  | _ => o
  end.

(** What one statement of the merge does to the value of [pkg.scripts]. *)
Definition fill_one (S : value) (kd : string * string) : value :=
  if truthy (prop S (fst kd)) then S else assign S (fst kd) (VStr (snd kd)).

Definition fill (ds : list (string * string)) (S : value) : value :=
  fold_left fill_one ds S.

(** The package after the whole merge. *)
Definition merged (pkg : value) : value :=
  assign pkg "scripts"
    (fill defaults (or_default (prop pkg "scripts") (VObj []))).

End Js.

(** ** The shell: working tree, exit statuses, [set -e] *)

Module Sh.

Record file := { data : string; exec : bool }.

(** What a path of the working tree holds: a regular file or a
    directory. *)
Inductive node := Regular (f : file) | Directory.

Record tree := Tree { nodes : gmap string node }.

(** [t !! p] is the regular file at [p]; a directory there, like nothing
    there, gives [None]. *)
#[global] Instance tree_lookup : Lookup string file tree := fun p t =>
  match nodes t !! p with Some (Regular f) => Some f | _ => None end.

#[global] Instance tree_empty : Empty tree := Tree ∅.

(** [<[p := f]> t] puts the regular file [f] at [p]. *)
#[global] Instance tree_insert : Insert string file tree := fun p f t =>
  Tree (<[p := Regular f]> (nodes t)).

Definition is_dir (t : tree) (p : string) : bool :=
  match nodes t !! p with Some Directory => true | _ => false end.

Definition add_dir (p : string) (t : tree) : tree :=
  Tree (<[p := Directory]> (nodes t)).

(** The directories a relative path goes through, outermost first:
    [a/b/c] goes through [a] and [a/b]. *)
Fixpoint ancestors_from (seen : string) (p : string) : list string :=
  match p with
  | EmptyString => []
  | String c rest =>
      if Ascii.eqb c "/"%char
      then seen :: ancestors_from (seen +:+ "/") rest
      else ancestors_from (seen +:+ String c EmptyString) rest
  end.

Definition ancestors (p : string) : list string := ancestors_from "" p.

(** The path can be resolved: everything it goes through is a directory. *)
Definition resolves (t : tree) (p : string) : bool :=
  forallb (is_dir t) (ancestors p).

(** The path can be opened for writing: it resolves, and is not itself a
    directory. *)
Definition writable (t : tree) (p : string) : bool :=
  resolves t p && negb (is_dir t p).

(** The state of a run: the working tree, the lines printed by [echo], the
    external commands invoked so far, each with its exit status, and the
    shell's own file operations ([cat >], [mkdir -p], [chmod +x]) so far,
    each with its exit status. *)
Record state := {
  fs : tree;
  out : list string;
  calls : list (string * Z);
  writes : list (string * Z);
}.

(** The machine the script runs on. *)
Record machine := {
  run_external : string -> tree -> Z * tree;
  JSON_parse : string -> option Js.value;
  JSON_stringify : Js.value -> string;
}.

(** A command either returns an exit status to the script, or ends the
    whole script with one ([exit], or a failure under [set -e]). *)
Inductive result := Ret (status : Z) | Exited (status : Z).

Definition exit_code (r : result) : Z :=
  match r with Ret s => s | Exited s => s end.

Definition cmd := state -> result * state.

(** [c1; c2] with [set -e] in force: a non-zero status of [c1] ends the
    script with that status. *)
Definition seq (c1 c2 : cmd) : cmd := fun st =>
  match c1 st with
  | (Ret s, st') => if Z.eqb s 0 then c2 st' else (Exited s, st')
  | (Exited s, st') => (Exited s, st')
  end.

(** [c1 || c2]: [c2] runs when [c1] returns a non-zero status, which is
    then forgotten; [set -e] does not apply to [c1]. *)
Definition or_else (c1 c2 : cmd) : cmd := fun st =>
  match c1 st with
  | (Ret s, st') => if Z.eqb s 0 then (Ret 0%Z, st') else c2 st'
  | (Exited s, st') => (Exited s, st')
  end.

(** [if test; then body; fi]: the status of [test] only selects the branch,
    and the statement returns 0 when the branch is not taken. *)
Definition if_then (test body : cmd) : cmd := fun st =>
  match test st with
  | (Ret s, st') => if Z.eqb s 0 then body st' else (Ret 0%Z, st')
  | (Exited s, st') => (Exited s, st')
  end.

Definition exit (s : Z) : cmd := fun st => (Exited s, st).

Definition echo (line : string) : cmd := fun st =>
  (Ret 0%Z,
   {| fs := fs st; out := out st ++ [line]; calls := calls st;
      writes := writes st |}).

Definition is_file (t : tree) (p : string) : bool :=
  match t !! p with Some _ => true | None => false end.

(** [[ ! -f p ]]. *)
Definition test_not_f (p : string) : cmd := fun st =>
  (Ret (if is_file (fs st) p then 1%Z else 0%Z), st).

(** A file operation of the shell with its outcome, entered in the log. *)
Definition written (op : string) (s : Z) (t : tree) (st : state)
  : result * state :=
  (Ret s,
   {| fs := t; out := out st; calls := calls st;
      writes := writes st ++ [(op, s)] |}).

(** The content [> p] leaves: the file is created without the executable
    bit, or truncated and refilled with its mode kept. *)
Definition write_file (p content : string) (t : tree) : tree :=
  <[p := {| data := content;
            exec := match t !! p with Some f => exec f | None => false end |}]> t.

(** [cat > p << 'EOF' ... EOF].  The redirection fails, and the command
    with it (status 1), when [p] is a directory or lies below something
    that is not one; nothing is written then. *)
Definition cat_to (p content : string) : cmd := fun st =>
  if writable (fs st) p
  then written ("cat > " +:+ p) 0 (write_file p content (fs st)) st
  else written ("cat > " +:+ p) 1 (fs st) st.

(** [mkdir -p]: the directories are made from the outside in; one that is
    there already is passed over, and a regular file in the way stops the
    command, with the directories made so far left behind. *)
Fixpoint make_dirs (ds : list string) (t : tree) : bool * tree :=
  match ds with
  | [] => (true, t)
  | d :: rest =>
      match nodes t !! d with
      | Some (Regular _) => (false, t)
      | Some Directory => make_dirs rest t
      | None => make_dirs rest (add_dir d t)
      end
  end.

Definition mkdir_p_tree (d : string) (t : tree) : bool * tree :=
  make_dirs (ancestors d ++ [d]) t.

(** [mkdir -p d]. *)
Definition mkdir_p (d : string) : cmd := fun st =>
  let (ok, t) := mkdir_p_tree d (fs st) in
  written ("mkdir -p " +:+ d) (if ok then 0 else 1) t st.

(** [chmod +x p]: fails when there is nothing at [p]. *)
Definition chmod_x (p : string) : cmd := fun st =>
  if resolves (fs st) p then
    match nodes (fs st) !! p with
    | Some (Regular f) =>
        written ("chmod +x " +:+ p) 0
          (<[p := {| data := data f; exec := true |}]> (fs st)) st
    | Some Directory => written ("chmod +x " +:+ p) 0 (fs st) st
    | None => written ("chmod +x " +:+ p) 1 (fs st) st
    end
  else written ("chmod +x " +:+ p) 1 (fs st) st.

(** A program of the machine run on the tree, logged under [name]. *)
Definition invoke (name : string) (prog : tree -> Z * tree) : cmd :=
  fun st =>
  let (s, t) := prog (fs st) in
  (Ret s,
   {| fs := t; out := out st; calls := calls st ++ [(name, s)];
      writes := writes st |}).

Definition external (M : machine) (line : string) : cmd :=
  invoke line (run_external M line).

Definition initial (t : tree) : state :=
  {| fs := t; out := []; calls := []; writes := [] |}.

End Sh.

Notation "c1 ;; c2" := (Sh.seq c1 c2) (at level 100, c2 at level 200, right associativity).

(** ** The bootstrap script *)

Module Bootstrap.

Import Sh.

(** Here-document bodies. *)
Definition prettierrc : string := heredoc [
  "{";
  "  " +:+ q "printWidth" +:+ ": 80,";
  "  " +:+ q "singleQuote" +:+ ": true,";
  "  " +:+ q "trailingComma" +:+ ": " +:+ q "es5" +:+ ",";
  "  " +:+ q "semi" +:+ ": true,";
  "  " +:+ q "tabWidth" +:+ ": 2";
  "}" ].

Definition prettierignore : string := heredoc [
  "node_modules"; "_site"; "dist"; "coverage"; ".build"; ".cache"; "*.min.js" ].

Definition eslintrc : string := heredoc [
  "/** @type {import('eslint').Linter.Config} */";
  "module.exports = {";
  "  env: {";
  "    browser: true,";
  "    es2021: true,";
  "    node: true";
  "  },";
  "  extends: ['eslint:recommended'],";
  "  parserOptions: {";
  "    ecmaVersion: 'latest',";
  "    sourceType: 'module'";
  "  },";
  "  rules: {";
  "    'no-unused-vars': ['warn', { argsIgnorePattern: '^_' }],";
  "    'no-undef': 'error',";
  "    'no-console': 'off'";
  "  },";
  "  ignorePatterns: ['_site/**', 'dist/**', 'node_modules/**']";
  "};" ].

Definition eslintignore : string := heredoc [
  "node_modules"; "_site"; "dist"; "coverage" ].

Definition stylelintrc : string := heredoc [
  "{";
  "  " +:+ q "extends" +:+ ": [" +:+ q "stylelint-config-standard" +:+ "],";
  "  " +:+ q "rules" +:+ ": {";
  "    " +:+ q "color-hex-case" +:+ ": " +:+ q "lower" +:+ ",";
  "    " +:+ q "color-hex-length" +:+ ": " +:+ q "short" +:+ ",";
  "    " +:+ q "block-no-empty" +:+ ": true,";
  "    " +:+ q "declaration-block-no-duplicate-properties" +:+ ": true,";
  "    " +:+ q "no-descending-specificity" +:+ ": null";
  "  }";
  "}" ].

Definition stylelintignore : string := heredoc [
  "node_modules"; "_site"; "dist" ].

Definition min_score (category : string) : string :=
  "        " +:+ q ("categories:" +:+ category) +:+ ": [" +:+ q "warn"
  +:+ ", { " +:+ q "minScore" +:+ ": 0.9 }]".

Definition lighthouserc : string := heredoc [
  "{";
  "  " +:+ q "ci" +:+ ": {";
  "    " +:+ q "collect" +:+ ": {";
  "      " +:+ q "staticDistDir" +:+ ": " +:+ q "_site";
  "    },";
  "    " +:+ q "assert" +:+ ": {";
  "      " +:+ q "assertions" +:+ ": {";
  min_score "performance" +:+ ",";
  min_score "accessibility" +:+ ",";
  min_score "best-practices" +:+ ",";
  min_score "seo";
  "      }";
  "    }";
  "  }";
  "}" ].

Definition pre_commit_hook : string := heredoc [
  "#!/bin/sh";
  ". " +:+ q ("$(dirname " +:+ q "$0" +:+ ")/_/husky.sh");
  "";
  "npm run precommit" ].

(** The tool-configuration files of steps 3 to 6 with their fixed
    content. *)
Definition config_files : list (string * string) :=
  [ (".prettierrc", prettierrc);
    (".prettierignore", prettierignore);
    (".eslintrc.cjs", eslintrc);
    (".eslintignore", eslintignore);
    (".stylelintrc.json", stylelintrc);
    (".stylelintignore", stylelintignore);
    ("lighthouserc.json", lighthouserc) ].

(** Command lines of the external tools. *)
Definition npm_install : string :=
  "npm install --save-dev prettier eslint stylelint stylelint-config-standard husky @lhci/cli".
Definition husky_install : string := "npx husky install".
Definition husky_add : string :=
  "npx husky add .husky/pre-commit " +:+ q "npm run precommit".
Definition node : string := "node".

(** The Node program of step 7 as a whole: an uncaught exception
    ([readFileSync] on a missing file, [JSON.parse] on malformed text, a
    [TypeError] in the merge) ends [node] with status 1 before anything is
    written. *)
Definition node_program (M : machine) (t : tree) : Z * tree :=
  match t !! "package.json" with
  | None => (1%Z, t)
  | Some f =>
      match JSON_parse M (data f) with
      | None => (1%Z, t)
      | Some pkg =>
          match Js.update_scripts pkg with
          | None => (1%Z, t)
          | Some pkg' =>
              (0%Z, write_file "package.json" (JSON_stringify M pkg') t)
          end
      end
  end.

(** The workflow file of step 9. *)
Definition ci_cd_yml : string := heredoc [
  "name: CI/CD";
  "";
  "on:";
  "  push:";
  "    branches: [ main ]";
  "  pull_request:";
  "";
  "jobs:";
  "  build-and-test:";
  "    runs-on: ubuntu-latest";
  "";
  "    steps:";
  "      - name: Checkout";
  "        uses: actions/checkout@v4";
  "";
  "      - name: Use Node.js";
  "        uses: actions/setup-node@v4";
  "        with:";
  "          node-version: 20";
  "          cache: npm";
  "";
  "      - name: Install dependencies";
  "        run: npm ci";
  "";
  "      - name: Check formatting (Prettier)";
  "        run: npm run format:check";
  "";
  "      - name: Run linters";
  "        run: npm run lint";
  "";
  "      - name: Build Eleventy site";
  "        run: npm run build";
  "";
  "      - name: Lighthouse CI";
  "        run: npm run lhci || echo " +:+ q "Lighthouse warnings â€“ check reports";
  "";
  "  deploy:";
  "    needs: build-and-test";
  "    if: github.ref == 'refs/heads/main'";
  "    runs-on: ubuntu-latest";
  "";
  "    steps:";
  "      - name: Checkout";
  "        uses: actions/checkout@v4";
  "";
  "      - name: Use Node.js";
  "        uses: actions/setup-node@v4";
  "        with:";
  "          node-version: 20";
  "          cache: npm";
  "";
  "      - name: Install dependencies";
  "        run: npm ci";
  "";
  "      - name: Build Eleventy site";
  "        run: npm run build";
  "";
  "      - name: Deploy to GitHub Pages";
  "        uses: peaceiris/actions-gh-pages@v4";
  "        with:";
  "          github_token: ${{ secrets.GITHUB_TOKEN }}";
  "          publish_dir: ./_site" ].

(** 1. Sanity checks. *)
Definition step1_sanity : cmd :=
  if_then (test_not_f "package.json")
    (echo "No package.json found. Run 'npm init -y' first, then rerun this script." ;;
     exit 1).

(** 2. Install dev dependencies. *)
Definition step2_install (M : machine) : cmd :=
  echo "Installing dev dependencies (Prettier, ESLint, Stylelint, Husky, Lighthouse CI)..." ;;
  external M npm_install.

(** 3. Create Prettier config. *)
Definition step3_prettier : cmd :=
  echo "Creating .prettierrc and .prettierignore..." ;;
  cat_to ".prettierrc" prettierrc ;;
  cat_to ".prettierignore" prettierignore.

(** 4. Create ESLint config. *)
Definition step4_eslint : cmd :=
  echo "Creating .eslintrc.cjs and .eslintignore..." ;;
  cat_to ".eslintrc.cjs" eslintrc ;;
  cat_to ".eslintignore" eslintignore.

(** 5. Create Stylelint config. *)
Definition step5_stylelint : cmd :=
  echo "Creating .stylelintrc.json and .stylelintignore..." ;;
  cat_to ".stylelintrc.json" stylelintrc ;;
  cat_to ".stylelintignore" stylelintignore.

(** 6. Lighthouse CI config. *)
Definition step6_lighthouse : cmd :=
  echo "Creating lighthouserc.json..." ;;
  cat_to "lighthouserc.json" lighthouserc.

(** 7. Update package.json scripts using Node. *)
Definition step7_scripts (M : machine) : cmd :=
  echo "Updating package.json scripts..." ;;
  invoke node (node_program M).

(** 8. Set up Husky.  The output of [husky add] goes to /dev/null. *)
Definition step8_husky (M : machine) : cmd :=
  echo "Setting up Husky pre-commit hook..." ;;
  external M husky_install ;;
  mkdir_p ".husky" ;;
  or_else (external M husky_add)
    (cat_to ".husky/pre-commit" pre_commit_hook ;;
     chmod_x ".husky/pre-commit").

(** 9. GitHub Actions workflow. *)
Definition step9_workflow : cmd :=
  echo "Creating GitHub Actions workflow (.github/workflows/ci-cd.yml)..." ;;
  mkdir_p ".github/workflows" ;;
  cat_to ".github/workflows/ci-cd.yml" ci_cd_yml.

Definition summary : cmd :=
  echo "=== Done. Quality gates are configured. ===" ;;
  echo "You now have:" ;;
  echo "  - Prettier (.prettierrc, .prettierignore)" ;;
  echo "  - ESLint (.eslintrc.cjs, .eslintignore)" ;;
  echo "  - Stylelint (.stylelintrc.json, .stylelintignore)" ;;
  echo "  - Husky pre-commit hook (runs format:check + lint)" ;;
  echo "  - Lighthouse CI (lighthouserc.json)" ;;
  echo "  - GitHub Actions CI/CD (.github/workflows/ci-cd.yml)" ;;
  echo "" ;;
  echo "Try: npm run format:check, npm run lint, npm run build" ;;
  echo "Then commit and push to see CI run on GitHub.".

(** The whole script, under [set -e]. *)
Definition setup (M : machine) : cmd :=
  echo "=== Quality Gates Setup Script ===" ;;
  step1_sanity ;;
  step2_install M ;;
  step3_prettier ;;
  step4_eslint ;;
  step5_stylelint ;;
  step6_lighthouse ;;
  step7_scripts M ;;
  step8_husky M ;;
  step9_workflow ;;
  summary.

(** A run of the script on a working tree: the exit code of the process
    and the final state. *)
Definition run (M : machine) (t : tree) : Z * state :=
  let (r, st) := setup M (initial t) in (exit_code r, st).



End Bootstrap.

(** ** The pipeline the workflow file describes *)

Module Pipeline.

Import Sh.

(** What a run of the workflow knows about its trigger. *)
Inductive event := Push | PullRequest.
Record context := { github_event : event; github_ref : string }.

Inductive trigger := OnPush (branches : list string) | OnPullRequest.

(** A step either uses an action or runs a shell script. *)
Inductive step_body :=
| Uses (action : string) (inputs : list (string * string))
| Run (script : cmd).

Record step := { step_name : string; body : step_body }.

Record job := {
  job_id : string;
  needs : list string;
  condition : context -> bool;
  runs_on : string;
  steps : list step;
}.

Record workflow := {
  workflow_name : string;
  triggers : list trigger;
  jobs : list job;
}.

Definition node_inputs : list (string * string) :=
  [("node-version", "20"); ("cache", "npm")].

(** [npm run lhci || echo ...] *)
Definition lighthouse_script (M : machine) : cmd :=
  or_else (external M "npm run lhci")
          (echo "Lighthouse warnings â€“ check reports").

Definition lighthouse_step (M : machine) : step :=
  {| step_name := "Lighthouse CI"; body := Run (lighthouse_script M) |}.

Definition build_and_test (M : machine) : job :=
  {| job_id := "build-and-test";
     needs := [];
     condition := fun _ => true;
     runs_on := "ubuntu-latest";
     steps :=
       [ {| step_name := "Checkout";
            body := Uses "actions/checkout@v4" [] |};
         {| step_name := "Use Node.js";
            body := Uses "actions/setup-node@v4" node_inputs |};
         {| step_name := "Install dependencies";
            body := Run (external M "npm ci") |};
         {| step_name := "Check formatting (Prettier)";
            body := Run (external M "npm run format:check") |};
         {| step_name := "Run linters";
            body := Run (external M "npm run lint") |};
         {| step_name := "Build Eleventy site";
            body := Run (external M "npm run build") |};
         lighthouse_step M ] |}.

(** [if: github.ref == 'refs/heads/main'] *)
Definition on_main (ctx : context) : bool :=
  String.eqb (github_ref ctx) "refs/heads/main".

Definition deploy (M : machine) : job :=
  {| job_id := "deploy";
     needs := ["build-and-test"];
     condition := on_main;
     runs_on := "ubuntu-latest";
     steps :=
       [ {| step_name := "Checkout";
            body := Uses "actions/checkout@v4" [] |};
         {| step_name := "Use Node.js";
            body := Uses "actions/setup-node@v4" node_inputs |};
         {| step_name := "Install dependencies";
            body := Run (external M "npm ci") |};
         {| step_name := "Build Eleventy site";
            body := Run (external M "npm run build") |};
         {| step_name := "Deploy to GitHub Pages";
            body := Uses "peaceiris/actions-gh-pages@v4"
                      [("github_token", "${{ secrets.GITHUB_TOKEN }}");
                       ("publish_dir", "./_site")] |} ] |}.

(** The content of [ci_cd_yml], read as a workflow. *)
Definition ci_cd (M : machine) : workflow :=
  {| workflow_name := "CI/CD";
     triggers := [OnPush ["main"]; OnPullRequest];
     jobs := [build_and_test M; deploy M] |}.

(** The runner.  A step succeeds when its action or its script ends with
    status 0; the steps of a job run in order and the first failure skips
    the rest and fails the job. *)
Definition run_step (M : machine) (s : step) (st : state) : Z * state :=
  match body s with
  | Uses action _ =>
      let (r, st') := external M action st in (exit_code r, st')
  | Run script =>
      let (r, st') := script st in (exit_code r, st')
  end.

Fixpoint run_steps (M : machine) (ss : list step) (st : state)
  : bool * state :=
  match ss with
  | [] => (true, st)
  | s :: rest =>
      let (code, st') := run_step M s st in
      if Z.eqb code 0 then run_steps M rest st' else (false, st')
  end.

Inductive outcome := Success | Failure | Skipped.

Definition run_job (M : machine) (j : job) (st : state) : outcome * state :=
  let (ok, st') := run_steps M (steps j) st in
  (if ok then Success else Failure, st').

(** A job is started when every job it needs has succeeded and its own
    condition holds; otherwise it is skipped. *)
Definition needs_met (done : list (string * outcome)) (j : job) : bool :=
  forallb (fun n =>
             existsb (fun r => String.eqb (fst r) n
                               && match snd r with Success => true | _ => false end)
                     done)
          (needs j).

Fixpoint run_jobs (M : machine) (ctx : context) (js : list job)
    (done : list (string * outcome)) (st : state)
  : list (string * outcome) * state :=
  match js with
  | [] => (done, st)
  | j :: rest =>
      if needs_met done j && condition j ctx then
        let (o, st') := run_job M j st in
        run_jobs M ctx rest (done ++ [(job_id j, o)]) st'
      else
        run_jobs M ctx rest (done ++ [(job_id j, Skipped)]) st
  end.

Definition run_workflow (M : machine) (ctx : context) (w : workflow)
    (t : tree) : list (string * outcome) * state :=
  run_jobs M ctx (jobs w) [] (initial t).

Definition outcome_of (id : string) (rs : list (string * outcome))
  : option outcome :=
  snd <$> find (fun r => String.eqb (fst r) id) rs.

Definition executed (o : option outcome) : bool :=
  match o with Some Success | Some Failure => true | _ => false end.

End Pipeline.

(** ** Concrete machines and working trees *)

Module Instances.

Import Sh.

(** A machine on which every external command succeeds and leaves the tree
    alone, and whose JSON oracles know one manifest, the empty object. *)
Definition calm : machine :=
  {| run_external := fun _ t => (0%Z, t);
     JSON_parse := fun _ => Some (Js.VObj []);
     JSON_stringify := fun _ => "{}" |}.

(** The same machine, except that the command [line] ends with [status]. *)
Definition failing (line : string) (status : Z) : machine :=
  {| run_external := fun l t => (if String.eqb l line then status else 0%Z, t);
     JSON_parse := JSON_parse calm;
     JSON_stringify := JSON_stringify calm |}.

Definition plain (content : string) : file :=
  {| data := content; exec := false |}.

(** A project with a manifest only, and one whose formatter configuration
    was edited by hand. *)
Definition fresh_project : tree :=
  <[ "package.json" := plain "{}" ]> ∅.


(** Projects in which something is in the way of the script: a directory
    where the hook file goes, a directory where the formatter
    configuration goes (next to a hand-edited audit configuration), and a
    regular file where the workflow directory goes. *)
Definition hook_blocked_project : tree :=
  add_dir ".husky/pre-commit" (add_dir ".husky" fresh_project).


Definition github_blocked_project : tree :=
  <[ ".github" := plain "notes" ]> fresh_project.

(** A machine on which [husky add] writes the hook itself. *)
Definition hooking : machine :=
  {| run_external := fun l t =>
       (0%Z,
        if String.eqb l Bootstrap.husky_add
        then <[ ".husky/pre-commit" :=
                  {| data := "npm run precommit"; exec := true |} ]> t
        else t);
     JSON_parse := JSON_parse calm;
     JSON_stringify := JSON_stringify calm |}.

(** A machine whose JSON oracles tell the empty manifest from the merged
    one, and read back what they print for both. *)
Definition printing_merged : machine :=
  {| run_external := run_external calm;
     JSON_parse := fun text =>
       if String.eqb text "{}" then Some (Js.VObj [])
       else Some (Js.merged (Js.VObj []));
     JSON_stringify := fun v =>
       match v with Js.VObj [] => "{}" | _ => "merged" end |}.

End Instances.

(** ** Statements *)

Import Sh.

(** The directories of a configuration lie inside its input directory. *)
Definition dir_is_inside_input (d : Eleventy.dirs) : Prop :=
  Eleventy.is_relative (Eleventy.includes d) = true /\
  Eleventy.is_relative (Eleventy.layouts d) = true /\
  Eleventy.stays_below (Eleventy.includes d) = true /\
  Eleventy.stays_below (Eleventy.layouts d) = true /\
  Eleventy.nested_under (Eleventy.includes d) (Eleventy.layouts d) = true /\
  Eleventy.nested_under (Eleventy.input d)
    (Eleventy.resolve (Eleventy.input d) (Eleventy.includes d)) = true /\
  Eleventy.nested_under (Eleventy.input d)
    (Eleventy.resolve (Eleventy.input d) (Eleventy.layouts d)) = true.

(** The content of the file at [p], if there is one. *)
Definition content_at (t : tree) (p : string) : option string :=
  data <$> t !! p.

(** The external command [line] never touches the file at [p]. *)
Definition leaves_alone (M : machine) (line p : string) : Prop :=
  forall t, snd (run_external M line t) !! p = t !! p.

(** The exit code is non-zero only when the manifest check or the
    dependency installation failed, and it is 1 in both cases. *)
Definition exit_code_only_from_steps_1_2 (M : machine) (t : tree)
  : Prop :=
  let code := fst (Bootstrap.run M t) in
  (code <> 0%Z ->
   is_file t "package.json" = false \/
   fst (run_external M Bootstrap.npm_install t) <> 0%Z) /\
  (is_file t "package.json" = false \/
   fst (run_external M Bootstrap.npm_install t) <> 0%Z -> code = 1%Z).



(** The hook file as the fallback leaves it. *)
Definition fallback_hook : file :=
  {| data := Bootstrap.pre_commit_hook; exec := true |}.

(** Whenever [husky add] has failed, the run leaves a hook file that is
    executable and whose content runs the [precommit] alias. *)
Definition hook_fallback_always_installs (M : machine) (t : tree) : Prop :=
  forall s,
    In (Bootstrap.husky_add, s) (calls (snd (Bootstrap.run M t))) ->
    s <> 0%Z ->
    exists f,
      fs (snd (Bootstrap.run M t)) !! ".husky/pre-commit" = Some f /\
      exec f = true /\
      occurs_in "npm run precommit" (data f) = true.


(** The fallback write of step 8, as it is logged. *)
Definition cat_hook : string := "cat > .husky/pre-commit".

(** Every entry of a log has status 0; and a log without the entries of
    one command. *)
Definition all_succeeded (log : list (string * Z)) : bool :=
  forallb (fun e => Z.eqb (snd e) 0) log.

Definition apart_from (line : string) (log : list (string * Z))
  : list (string * Z) :=
  List.filter (fun e => negb (String.eqb (fst e) line)) log.

(** ** Further statements *)

(** The [scripts] object the merge builds from nothing: every alias with
    its default command, in program order. *)
Definition all_defaults : Js.value :=
  Js.VObj (map (fun kd => (fst kd, Js.VStr (snd kd))) Js.defaults).

(** The property list has no property [k]. *)
Definition absent (ss : list (string * Js.value)) (k : string) : bool :=
  match Js.own k ss with None => true | Some _ => false end.

(** The manifest has no [scripts], a falsy one, or an object: the cases in
    which the aliases end up in the written file. *)
Definition takes_aliases (ps : list (string * Js.value)) : bool :=
  match Js.own "scripts" ps with
  | None | Some (Js.VObj _) => true
  | Some (Js.VArr _ _) => false
  | Some s => negb (Js.truthy s)
  end.

(** The words of a text, split at blanks and newlines, and the scripts a
    text asks [npm run] for. *)
Definition is_blank (c : ascii) : bool :=
  Ascii.eqb c " "%char || Ascii.eqb c (ascii_of_nat 10).

Fixpoint words_from (cur : string) (s : string) : list string :=
  match s with
  | EmptyString => [cur]
  | String c rest =>
      if is_blank c then cur :: words_from "" rest
      else words_from (cur +:+ String c EmptyString) rest
  end.

Definition words (s : string) : list string := words_from "" s.

Fixpoint npm_run_targets (ws : list string) : list string :=
  match ws with
  | [] => []
  | w :: rest =>
      match rest with
      | w1 :: target :: _ =>
          if String.eqb w "npm" && String.eqb w1 "run"
          then target :: npm_run_targets rest
          else npm_run_targets rest
      | _ => []
      end
  end.

(** The scripts that the pre-commit hook, the workflow and the default
    commands themselves run through [npm run]. *)
Definition scripts_referenced : list string :=
  npm_run_targets (words Bootstrap.pre_commit_hook)
  ++ npm_run_targets (words Bootstrap.ci_cd_yml)
  ++ concat (map (fun kd => npm_run_targets (words (snd kd))) Js.defaults).


(** The commands of the script in the order it runs them, and the paths
    it writes itself. *)
Definition tool_order : list string :=
  [Bootstrap.npm_install; Bootstrap.node; Bootstrap.husky_install;
   Bootstrap.husky_add].

Definition written_paths : list string :=
  map fst Bootstrap.config_files
  ++ ["package.json"; ".husky/pre-commit"; ".github/workflows/ci-cd.yml"].

Definition done_line : string := "=== Done. Quality gates are configured. ===".

Definition publish_action : string := "peaceiris/actions-gh-pages@v4".

Definition lighthouse_warning : string :=
  "Lighthouse warnings â€“ check reports".

(** The [on:] block: a push starts the workflow on the listed branches, a
    pull request always. *)
Definition triggered (w : Pipeline.workflow) (ctx : Pipeline.context) : bool :=
  existsb
    (fun tr =>
       match tr, Pipeline.github_event ctx with
       | Pipeline.OnPush branches, Pipeline.Push =>
           existsb (fun b => String.eqb (Pipeline.github_ref ctx)
                                        ("refs/heads/" +:+ b))
                   branches
       | Pipeline.OnPullRequest, Pipeline.PullRequest => true
       | _, _ => false
       end)
    (Pipeline.triggers w).

(** Manifests and triggers used as instances. *)
Definition site_scripts : list (string * Js.value) :=
  [("test", Js.VStr "jest"); ("build", Js.VStr "make"); ("lint", Js.VStr "")].

Definition site_manifest : list (string * Js.value) :=
  [("name", Js.VStr "site"); ("scripts", Js.VObj site_scripts)].

Definition bare_manifest : list (string * Js.value) :=
  [("name", Js.VStr "site")].

Definition odd_manifest : list (string * Js.value) :=
  [("name", Js.VStr "site"); ("scripts", Js.VStr "none")].

Definition push_to_main : Pipeline.context :=
  {| Pipeline.github_event := Pipeline.Push;
     Pipeline.github_ref := "refs/heads/main" |}.

Definition pull_request_7 : Pipeline.context :=
  {| Pipeline.github_event := Pipeline.PullRequest;
     Pipeline.github_ref := "refs/pull/7/merge" |}.

(** * Properties *)

Import Js.

(** Membership in a list that is known entry by entry. *)
Ltac split_in H :=
  cbn [In] in H;
  repeat (destruct H as [H|H]; [try discriminate H|]);
  try (exfalso; exact H).

(** ** The Eleventy configuration *)

Lemma dir_literal_inside : dir_is_inside_input Eleventy.dir_literal.
Proof. repeat split; reflexivity. Qed.

(** C9: in each of the three variants of the configuration function, and
    whatever the [eleventyConfig] object passed in, the includes and the
    layouts directories are relative paths without a climbing segment, the
    layouts directory lies below the includes directory, and both resolve
    against the input directory to directories below it. *)
Theorem C9_dirs_relative_to_input :
  Forall (fun variant =>
            forall c, dir_is_inside_input (Eleventy.dir (snd (variant c))))
         Eleventy.variants.
Proof.
  unfold Eleventy.variants.
  repeat constructor; intros c; exact dir_literal_inside.
Qed.

(** ** The merge of the command aliases *)

Section PropertyLists.

Variables (k : string) (v : value).

Lemma own_put_same ps : own k (put k v ps) = Some v.
Proof.
  induction ps as [|[k' v'] ps IH]; cbn.
  - now rewrite String.eqb_refl.
  - destruct (String.eqb k k') eqn:E; cbn; rewrite ?String.eqb_refl, ?E; auto.
Qed.

Lemma own_put_other k' ps : k <> k' -> own k' (put k v ps) = own k' ps.
Proof.
  intros Hne. induction ps as [|[k0 v0] ps IH]; cbn.
  - destruct (String.eqb_spec k' k); congruence.
  - destruct (String.eqb_spec k k0); cbn.
    + subst k0. destruct (String.eqb_spec k' k); congruence.
    + destruct (String.eqb_spec k' k0); auto.
Qed.

Lemma put_same ps : own k ps = Some v -> put k v ps = ps.
Proof.
  induction ps as [|[k0 v0] ps IH]; cbn; [discriminate|].
  destruct (String.eqb_spec k k0).
  - intros [= ->]. now subst.
  - intros H. now rewrite IH.
Qed.

Lemma put_put v' ps : put k v' (put k v ps) = put k v' ps.
Proof.
  induction ps as [|[k0 v0] ps IH]; cbn.
  - now rewrite String.eqb_refl.
  - destruct (String.eqb_spec k k0); cbn.
    + now rewrite String.eqb_refl.
    + destruct (String.eqb_spec k k0); [contradiction|]. now rewrite IH.
Qed.

End PropertyLists.

Lemma truthy_defined v : truthy v = true -> v <> VUndefined.
Proof. intros H ->. discriminate. Qed.

Lemma get_total o k : truthy o = true -> get o k = Some (prop o k).
Proof. destruct o; cbn; try discriminate; auto. Qed.

Lemma get_holder o k : holder o = true -> get o k = Some (prop o k).
Proof. destruct o; cbn; try discriminate; auto. Qed.

Lemma set_total o k v : truthy o = true -> set o k v = Some (assign o k v).
Proof. destruct o; cbn; try discriminate; auto. Qed.

Lemma set_holder o k v : holder o = true -> set o k v = Some (assign o k v).
Proof. destruct o; cbn; try discriminate; auto. Qed.

Lemma holder_assign o k v : holder (assign o k v) = holder o.
Proof. destruct o; reflexivity. Qed.

Lemma truthy_assign o k v : truthy (assign o k v) = truthy o.
Proof. destruct o; reflexivity. Qed.

Lemma prop_assign_same o k v : holder o = true -> prop (assign o k v) k = v.
Proof.
  destruct o; cbn; try discriminate; intros _; now rewrite own_put_same.
Qed.

Lemma prop_assign_other o k k' v :
  k <> k' -> prop (assign o k v) k' = prop o k'.
Proof. intros H. destruct o; cbn; auto; now rewrite own_put_other. Qed.

Lemma assign_assign o k v v' : assign (assign o k v) k v' = assign o k v'.
Proof. destruct o; cbn; auto; now rewrite put_put. Qed.

Lemma assign_prop o k : prop o k <> VUndefined -> assign o k (prop o k) = o.
Proof.
  destruct o; cbn; auto; intros H.
  - destruct (own k named) eqn:E; cbn in *; [|congruence]. now rewrite put_same.
  - destruct (own k props) eqn:E; cbn in *; [|congruence]. now rewrite put_same.
Qed.

Lemma or_default_truthy a b :
  truthy b = true -> truthy (or_default a b) = true.
Proof. unfold or_default. destruct (truthy a) eqn:E; auto. Qed.

(** *** One statement at a time

    On a package that holds properties and whose [scripts] is truthy, no
    statement throws, and both forms of statement act as [fill_one]. *)

Section Statements.

Variables (P S : value).
Hypothesis holder_P : holder P = true.
Hypothesis truthy_S : truthy S = true.

Lemma read_script_assign k :
  read_script (assign P "scripts" S) k = Some (prop S k).
Proof.
  unfold read_script.
  rewrite get_holder by now rewrite holder_assign.
  cbn [bind]. rewrite prop_assign_same by assumption. now apply get_total.
Qed.

Lemma write_script_assign k v :
  write_script (assign P "scripts" S) k v
  = Some (assign P "scripts" (assign S k v)).
Proof.
  unfold write_script.
  rewrite get_holder by now rewrite holder_assign.
  cbn [bind]. rewrite prop_assign_same by assumption.
  rewrite set_total by assumption. cbn [bind].
  rewrite set_holder by now rewrite holder_assign.
  now rewrite assign_assign.
Qed.

Lemma set_if_not_assign k d :
  set_if_not k d (assign P "scripts" S)
  = Some (assign P "scripts" (fill_one S (k, d))).
Proof.
  unfold set_if_not, fill_one. cbn [fst snd].
  rewrite read_script_assign. cbn [bind].
  destruct (truthy (prop S k)); cbn [negb]; [reflexivity|].
  now apply write_script_assign.
Qed.

Lemma set_or_assign k d :
  set_or k d (assign P "scripts" S)
  = Some (assign P "scripts" (fill_one S (k, d))).
Proof.
  unfold set_or, fill_one, or_default. cbn [fst snd].
  rewrite read_script_assign. cbn [bind].
  rewrite write_script_assign.
  destruct (truthy (prop S k)) eqn:E; [|reflexivity].
  rewrite assign_prop; [reflexivity|]. now apply truthy_defined.
Qed.

End Statements.

Lemma fill_one_truthy S kd : truthy (fill_one S kd) = truthy S.
Proof.
  unfold fill_one. destruct (truthy (prop S kd.1)); auto using truthy_assign.
Qed.

Lemma fill_truthy ds S : truthy (fill ds S) = truthy S.
Proof.
  revert S. induction ds as [|kd ds IH]; intros S; cbn; auto.
  unfold fill in IH. now rewrite IH, fill_one_truthy.
Qed.

Lemma init_scripts_holder pkg :
  holder pkg = true ->
  init_scripts pkg
  = Some (assign pkg "scripts" (or_default (prop pkg "scripts") (VObj []))).
Proof.
  intros H. unfold init_scripts. rewrite get_holder by assumption.
  cbn [bind]. now apply set_holder.
Qed.

(** The program refines its closed form: on a package that holds
    properties it completes with [merged]. *)
Lemma update_scripts_holder pkg :
  holder pkg = true -> update_scripts pkg = Some (merged pkg).
Proof.
  intros H. unfold update_scripts, merged.
  rewrite init_scripts_holder by assumption. cbn [bind].
  assert (HS : truthy (or_default (prop pkg "scripts") (VObj [])) = true)
    by now apply or_default_truthy.
  revert HS. generalize (or_default (prop pkg "scripts") (VObj [])).
  intros S HS. unfold fill, defaults. cbn [fold_left].
  repeat (first [rewrite set_if_not_assign | rewrite set_or_assign];
          [cbn [bind] | assumption | now rewrite ?fill_one_truthy]).
  reflexivity.
Qed.

(** On anything else ([null], a number, a string, a boolean) it dies of a
    [TypeError]. *)
Lemma update_scripts_inv pkg pkg' :
  update_scripts pkg = Some pkg' -> holder pkg = true /\ pkg' = merged pkg.
Proof.
  destruct (holder pkg) eqn:H.
  - rewrite update_scripts_holder by assumption. split; congruence.
  - destruct pkg; cbn; try discriminate.
Qed.

(** *** The closed form *)

Lemma fill_one_holder S kd : holder (fill_one S kd) = holder S.
Proof.
  unfold fill_one. destruct (truthy (prop S kd.1)); auto using holder_assign.
Qed.

Lemma fill_holder ds S : holder (fill ds S) = holder S.
Proof.
  revert S. induction ds as [|kd ds IH]; intros S; cbn; auto.
  unfold fill in IH. now rewrite IH, fill_one_holder.
Qed.

Lemma fill_one_keeps S kd k :
  truthy (prop S k) = true -> prop (fill_one S kd) k = prop S k.
Proof.
  intros H. unfold fill_one. destruct (truthy (prop S kd.1)) eqn:E; auto.
  apply prop_assign_other. intros <-. congruence.
Qed.

Lemma fill_keeps ds S k :
  truthy (prop S k) = true -> prop (fill ds S) k = prop S k.
Proof.
  revert S. induction ds as [|kd ds IH]; intros S H; cbn; auto.
  unfold fill in IH. rewrite IH; rewrite fill_one_keeps; auto.
Qed.

Lemma fill_one_sets S kd :
  holder S = true -> snd kd <> "" ->
  truthy (prop (fill_one S kd) (fst kd)) = true.
Proof.
  intros HS Hd. unfold fill_one. destruct (truthy (prop S kd.1)) eqn:E; auto.
  rewrite prop_assign_same by assumption. cbn.
  destruct (String.eqb_spec kd.2 ""); [contradiction | reflexivity].
Qed.

Lemma fill_sets ds S k :
  holder S = true -> Forall (fun kd => snd kd <> "") ds ->
  In k (map fst ds) -> truthy (prop (fill ds S) k) = true.
Proof.
  revert S. induction ds as [|kd ds IH]; intros S HS Hd Hk; cbn in *; [tauto|].
  inversion Hd as [|? ? Hd1 Hd2]; subst.
  unfold fill in IH.
  destruct (in_dec String.string_dec k (map fst ds)) as [Hin|Hout].
  - apply IH; auto. now rewrite fill_one_holder.
  - destruct Hk as [<-|Hk]; [|contradiction].
    pose proof (fill_one_sets S kd HS Hd1) as Hset.
    pose proof (fill_keeps ds (fill_one S kd) kd.1 Hset) as Hkeep.
    unfold fill in Hkeep. now rewrite Hkeep.
Qed.

Lemma fill_fixed ds S :
  (holder S = true -> Forall (fun kd => truthy (prop S (fst kd)) = true) ds) ->
  fill ds S = S.
Proof.
  induction ds as [|kd ds IH]; intros H; cbn; auto.
  assert (E : fill_one S kd = S).
  { unfold fill_one. destruct (holder S) eqn:HS.
    - specialize (H eq_refl). inversion H as [|? ? H1 H2]; subst.
      now rewrite H1.
    - destruct (truthy (prop S kd.1)); auto.
      destruct S; try discriminate; reflexivity. }
  rewrite E. apply IH. intros HS. specialize (H HS). now inversion H.
Qed.

Lemma defaults_nonempty : Forall (fun kd => snd kd <> "") defaults.
Proof. unfold defaults. repeat constructor; discriminate. Qed.

Lemma fill_idempotent S : fill defaults (fill defaults S) = fill defaults S.
Proof.
  apply fill_fixed. rewrite fill_holder. intros HS.
  apply List.Forall_forall. intros kd Hin.
  apply fill_sets; auto using defaults_nonempty. now apply in_map.
Qed.

Lemma merged_merged pkg :
  holder pkg = true -> merged (merged pkg) = merged pkg.
Proof.
  intros H.
  set (S := fill defaults (or_default (prop pkg "scripts") (VObj []))).
  assert (HS : truthy S = true).
  { unfold S. rewrite fill_truthy. now apply or_default_truthy. }
  assert (E : prop (merged pkg) "scripts" = S).
  { unfold merged. now apply prop_assign_same. }
  unfold merged at 1. rewrite E. unfold or_default. rewrite HS.
  unfold S at 1. rewrite fill_idempotent. unfold merged. apply assign_assign.
Qed.

(** X1: run on its own result, the merge changes nothing. *)
Theorem update_scripts_idempotent pkg pkg' :
  update_scripts pkg = Some pkg' -> update_scripts pkg' = Some pkg'.
Proof.
  intros [H ->]%update_scripts_inv.
  assert (H' : holder (merged pkg) = true).
  { unfold merged. now rewrite holder_assign. }
  rewrite update_scripts_holder by exact H'.
  now rewrite merged_merged.
Qed.

(** X2: the merge leaves every top-level field but [scripts] as it was. *)
Theorem top_level_fields_kept ps pkg' k :
  update_scripts (VObj ps) = Some pkg' -> k <> "scripts" ->
  field pkg' k = field (VObj ps) k.
Proof.
  intros [_ ->]%update_scripts_inv Hk.
  unfold merged. cbn [assign field]. apply own_put_other. congruence.
Qed.

Lemma fill_obj ds ss : exists ss', fill ds (VObj ss) = VObj ss'.
Proof.
  revert ss. induction ds as [|kd ds IH]; intros ss; cbn; [eauto|].
  unfold fill_one.
  destruct (truthy (prop (VObj ss) kd.1)); cbn [assign]; apply IH.
Qed.

Lemma fill_one_obj ss kd :
  fill_one (VObj ss) kd
  = VObj (if truthy (default VUndefined (own (fst kd) ss)) then ss
          else put (fst kd) (VStr (snd kd)) ss).
Proof. unfold fill_one. cbn [prop assign]. now destruct (truthy _). Qed.

Lemma fill_own_other ds ss ss' k :
  fill ds (VObj ss) = VObj ss' -> ~ In k (map fst ds) -> own k ss' = own k ss.
Proof.
  revert ss. induction ds as [|kd ds IH]; intros ss; cbn.
  - now intros [= ->].
  - rewrite fill_one_obj. intros E Hk. rewrite (IH _ E) by tauto.
    destruct (truthy _); [reflexivity|]. apply own_put_other. tauto.
Qed.

Lemma fill_own_truthy ds ss ss' k v :
  fill ds (VObj ss) = VObj ss' -> own k ss = Some v -> truthy v = true ->
  own k ss' = Some v.
Proof.
  revert ss. induction ds as [|kd ds IH]; intros ss; cbn.
  - now intros [= ->].
  - rewrite fill_one_obj. intros E Hv Ht. apply (IH _ E); [|assumption].
    destruct (truthy (default VUndefined (own kd.1 ss))) eqn:Et;
      [assumption|].
    rewrite own_put_other; [assumption|].
    intros Heq. rewrite Heq, Hv in Et. cbn in Et. congruence.
Qed.

Lemma script_entry_merged ps ss k :
  own "scripts" ps = Some (VObj ss) ->
  exists ss', fill defaults (VObj ss) = VObj ss' /\
              script_entry (merged (VObj ps)) k = own k ss'.
Proof.
  intros Es. destruct (fill_obj defaults ss) as [ss' E]. exists ss'.
  split; [assumption|].
  unfold merged, script_entry, field. cbn [assign prop].
  rewrite Es. cbn [default from_option id or_default truthy].
  rewrite own_put_same, E. reflexivity.
Qed.

(** X4: an entry of [scripts] with a truthy value (a non-empty command) is
    never overwritten. *)
Theorem truthy_entries_kept pkg pkg' k v :
  update_scripts pkg = Some pkg' ->
  script_entry pkg k = Some v -> truthy v = true ->
  script_entry pkg' k = Some v.
Proof.
  unfold script_entry at 1, field.
  destruct pkg as [| |b|x|s|es n|ps]; try discriminate.
  destruct (own "scripts" ps) as [[| |b|x|s|es n|ss]|] eqn:Es;
    try discriminate.
  intros [_ ->]%update_scripts_inv Hv Ht.
  destruct (script_entry_merged ps ss k Es) as (ss' & E & ->).
  eauto using fill_own_truthy.
Qed.

(** X5: an entry of [scripts] under a name that is not one of the ten
    aliases is never touched. *)
Theorem other_entries_kept pkg pkg' k v :
  update_scripts pkg = Some pkg' -> ~ In k aliases ->
  script_entry pkg k = Some v -> script_entry pkg' k = Some v.
Proof.
  unfold script_entry at 1, field.
  destruct pkg as [| |b|x|s|es n|ps]; try discriminate.
  destruct (own "scripts" ps) as [[| |b|x|s|es n|ss]|] eqn:Es;
    try discriminate.
  intros [_ ->]%update_scripts_inv Hk Hv.
  destruct (script_entry_merged ps ss k Es) as (ss' & E & ->).
  rewrite <- Hv. eapply fill_own_other; eauto.
Qed.

Lemma fill_one_other S kd k : fst kd <> k -> prop (fill_one S kd) k = prop S k.
Proof.
  intros H. unfold fill_one. destruct (truthy (prop S kd.1)); auto.
  now apply prop_assign_other.
Qed.

Lemma fill_one_at S k d :
  holder S = true -> prop (fill_one S (k, d)) k = or_default (prop S k) (VStr d).
Proof.
  intros HS. unfold fill_one, or_default. cbn [fst snd].
  destruct (truthy (prop S k)); [reflexivity|]. now apply prop_assign_same.
Qed.

Lemma truthy_command d : d <> "" -> truthy (VStr d) = true.
Proof.
  intros H. unfold truthy.
  destruct (String.eqb_spec d ""); [contradiction | reflexivity].
Qed.

Lemma fill_at ds S k d :
  holder S = true -> List.NoDup (map fst ds) -> In (k, d) ds -> d <> "" ->
  prop (fill ds S) k = or_default (prop S k) (VStr d).
Proof.
  revert S. induction ds as [|kd ds IH]; intros S HS Hnd Hin Hd; [destruct Hin|].
  cbn [map] in Hnd. inversion Hnd as [|? ? Hnot Hnd']; subst.
  cbn [fill fold_left]. destruct Hin as [->|Hin].
  - pose proof (fill_keeps ds (fill_one S (k, d)) k) as Hk.
    rewrite fill_one_at in Hk by assumption. unfold fill in Hk. apply Hk.
    unfold or_default. destruct (truthy (prop S k)) eqn:E; [assumption|].
    now apply truthy_command.
  - assert (Hne : fst kd <> k).
    { intros <-. apply Hnot. apply (in_map fst) in Hin. exact Hin. }
    unfold fill in IH. rewrite (IH (fill_one S kd)); auto.
    + now rewrite fill_one_other.
    + now rewrite fill_one_holder.
Qed.

Lemma defaults_distinct : List.NoDup (map fst defaults).
Proof.
  unfold defaults. cbn [map fst].
  repeat (apply List.NoDup_cons; [cbn [In]; intros H; split_in H|]).
  apply List.NoDup_nil.
Qed.

(** X3: what the merge leaves under each alias is the value that was there
    when it was truthy, and the default command otherwise. *)
Theorem alias_entry_after_merge ps ss pkg' k d :
  own "scripts" ps = Some (VObj ss) ->
  update_scripts (VObj ps) = Some pkg' ->
  In (k, d) defaults ->
  script_entry pkg' k
  = Some (or_default (default VUndefined (own k ss)) (VStr d)).
Proof.
  intros Es [_ ->]%update_scripts_inv Hin.
  destruct (script_entry_merged ps ss k Es) as (ss' & E & ->).
  assert (Hd : d <> "").
  { pose proof defaults_nonempty as H. rewrite List.Forall_forall in H.
    exact (H _ Hin). }
  pose proof (fill_at defaults (VObj ss) k d eq_refl defaults_distinct Hin Hd) as H.
  rewrite E in H. cbn [prop] in H.
  assert (Ht : truthy (or_default (default VUndefined (own k ss)) (VStr d)) = true).
  { apply or_default_truthy. now apply truthy_command. }
  rewrite <- H in Ht |- *.
  destruct (own k ss') as [w|]; [reflexivity | discriminate Ht].
Qed.

(** C5, at the input where the code departs from it: in the manifest
    [{ scripts: { dev: (empty string) } }] the alias [dev] is present, and
    the merge completes and replaces its value by the default command; an
    existing entry is overwritten. *)
Theorem C5_present_empty_alias_is_overwritten :
  let pkg := VObj [("scripts", VObj [("dev", VStr "")])] in
  script_entry pkg "dev" = Some (VStr "") /\
  exists pkg',
    update_scripts pkg = Some pkg' /\
    script_entry pkg' "dev" = Some (VStr "npx eleventy --serve --quiet").
Proof.
  cbn zeta. split; [reflexivity|].
  eexists. split; [vm_compute; reflexivity|]. reflexivity.
Qed.

(** C10, at the input where the code departs from it: in a manifest with a
    name, a [test] script and an empty [lint] script, the merge keeps the
    name and the [test] entry and replaces the value of the existing
    [lint] entry by the default command. *)
Theorem C10_existing_lint_entry_not_preserved :
  let pkg := VObj [("name", VStr "site");
                   ("scripts", VObj [("test", VStr "jest"); ("lint", VStr "")])] in
  script_entry pkg "lint" = Some (VStr "") /\
  exists pkg',
    update_scripts pkg = Some pkg' /\
    field pkg' "name" = Some (VStr "site") /\
    script_entry pkg' "test" = Some (VStr "jest") /\
    script_entry pkg' "lint"
    = Some (VStr "npm run lint:js && npm run lint:css").
Proof.
  cbn zeta. split; [reflexivity|].
  eexists. split; [vm_compute; reflexivity|]. repeat split.
Qed.

(** ** The bootstrap script *)

(** *** The working tree *)

Lemma tree_lookup_insert (p : string) (f : file) (t : tree) :
  (<[p := f]> t) !! p = Some f.
Proof.
  unfold lookup, tree_lookup, insert, tree_insert. cbn [nodes].
  now rewrite lookup_insert_eq.
Qed.

Lemma tree_lookup_insert_ne (p p' : string) (f : file) (t : tree) :
  p <> p' -> (<[p := f]> t) !! p' = t !! p'.
Proof.
  intros H. unfold lookup, tree_lookup, insert, tree_insert. cbn [nodes].
  now rewrite lookup_insert_ne.
Qed.

Lemma tree_insert_insert (p : string) (f g : file) (t : tree) :
  <[p := f]> (<[p := g]> t) = <[p := f]> t.
Proof.
  unfold insert, tree_insert. cbn [nodes]. now rewrite insert_insert_eq.
Qed.


Lemma is_dir_insert_ne (p p' : string) (f : file) (t : tree) :
  p <> p' -> is_dir (<[p := f]> t) p' = is_dir t p'.
Proof.
  intros H. unfold is_dir, insert, tree_insert. cbn [nodes].
  now rewrite lookup_insert_ne.
Qed.

Lemma lookup_add_dir d p t : add_dir d t !! p = if String.eqb d p then None else t !! p.
Proof.
  unfold lookup, tree_lookup, add_dir. cbn [nodes].
  destruct (String.eqb_spec d p) as [->|H].
  - now rewrite lookup_insert_eq.
  - now rewrite lookup_insert_ne.
Qed.

(** [mkdir -p] changes no regular file. *)
Lemma make_dirs_lookup ds t p : snd (make_dirs ds t) !! p = t !! p.
Proof.
  revert t. induction ds as [|d ds IH]; intros t; cbn; [reflexivity|].
  destruct (nodes t !! d) as [[f|]|] eqn:E; cbn; auto.
  rewrite IH, lookup_add_dir. destruct (String.eqb_spec d p) as [->|]; auto.
  unfold lookup, tree_lookup. now rewrite E.
Qed.

Lemma mkdir_p_lookup d t ok t' p :
  mkdir_p_tree d t = (ok, t') -> t' !! p = t !! p.
Proof.
  intros H. pose proof (make_dirs_lookup (ancestors d ++ [d]) t p) as L.
  unfold mkdir_p_tree in H. now rewrite H in L.
Qed.

Lemma write_file_other p p' content t :
  p <> p' -> write_file p content t !! p' = t !! p'.
Proof. intros H. unfold write_file. now rewrite tree_lookup_insert_ne. Qed.

Lemma write_file_same p content t :
  content_at (write_file p content t) p = Some content.
Proof. unfold content_at, write_file. now rewrite tree_lookup_insert. Qed.



Lemma is_dir_write_other p p' content t :
  p <> p' -> is_dir (write_file p content t) p' = is_dir t p'.
Proof. intros H. unfold write_file. now apply is_dir_insert_ne. Qed.

Lemma hook_ancestors : ancestors ".husky/pre-commit" = [".husky"].
Proof. vm_compute. reflexivity. Qed.

Lemma writable_hook t :
  writable t ".husky/pre-commit"
  = is_dir t ".husky" && negb (is_dir t ".husky/pre-commit").
Proof.
  unfold writable, resolves. rewrite hook_ancestors. cbn [forallb].
  now rewrite andb_true_r.
Qed.

(** After a successful [cat > .husky/pre-commit], [chmod +x] succeeds. *)
Lemma chmod_x_hook content t o c w :
  writable t ".husky/pre-commit" = true ->
  chmod_x ".husky/pre-commit"
    {| fs := write_file ".husky/pre-commit" content t;
       out := o; calls := c; writes := w |}
  = (Ret 0%Z,
     {| fs := <[".husky/pre-commit" := {| data := content; exec := true |}]>
                (write_file ".husky/pre-commit" content t);
        out := o; calls := c;
        writes := w ++ [("chmod +x " +:+ ".husky/pre-commit", 0%Z)] |}).
Proof.
  intros H. rewrite writable_hook in H. apply andb_true_iff in H as [H _].
  unfold chmod_x, written. cbn [fs out calls writes].
  unfold resolves. rewrite hook_ancestors. cbn [forallb].
  rewrite is_dir_write_other by discriminate. rewrite H. cbn [andb].
  unfold write_file at 1. unfold insert at 1, tree_insert at 1. cbn [nodes].
  now rewrite lookup_insert_eq.
Qed.

(** *** Symbolic execution

    The script is run one command at a time: the equations below give the
    state after the command at the head of a sequence, and the tactics
    split on what the tree and the machine can answer. *)

Lemma seq_assoc a b c st : ((a ;; b) ;; c) st = (a ;; b ;; c) st.
Proof.
  unfold seq. destruct (a st) as [[s|s] st1]; [|reflexivity].
  destruct (Z.eqb s 0); [|reflexivity].
  destruct (b st1) as [[s'|s'] st2]; reflexivity.
Qed.

Lemma seq_echo line c st :
  (echo line ;; c) st
  = c {| fs := fs st; out := out st ++ [line]; calls := calls st;
         writes := writes st |}.
Proof. reflexivity. Qed.

Lemma seq_exit s c st : (exit s ;; c) st = (Exited s, st).
Proof. reflexivity. Qed.

Lemma seq_if_not_f p body c st :
  (if_then (test_not_f p) body ;; c) st
  = if is_file (fs st) p then c st else (body ;; c) st.
Proof. unfold seq, if_then, test_not_f. now destruct (is_file (fs st) p). Qed.

Lemma seq_cat_to p content c st :
  (cat_to p content ;; c) st
  = if writable (fs st) p
    then c {| fs := write_file p content (fs st); out := out st;
              calls := calls st;
              writes := writes st ++ [("cat > " +:+ p, 0%Z)] |}
    else (Exited 1%Z,
          {| fs := fs st; out := out st; calls := calls st;
             writes := writes st ++ [("cat > " +:+ p, 1%Z)] |}).
Proof. unfold seq, cat_to, written. now destruct (writable (fs st) p). Qed.

Lemma seq_mkdir_p d c st :
  (mkdir_p d ;; c) st
  = let (ok, t) := mkdir_p_tree d (fs st) in
    if ok
    then c {| fs := t; out := out st; calls := calls st;
              writes := writes st ++ [("mkdir -p " +:+ d, 0%Z)] |}
    else (Exited 1%Z,
          {| fs := t; out := out st; calls := calls st;
             writes := writes st ++ [("mkdir -p " +:+ d, 1%Z)] |}).
Proof.
  unfold seq, mkdir_p, written. now destruct (mkdir_p_tree d (fs st)) as [[] t].
Qed.

Lemma seq_invoke name prog c st :
  (invoke name prog ;; c) st
  = let (s, t) := prog (fs st) in
    let st' := {| fs := t; out := out st;
                  calls := calls st ++ [(name, s)]; writes := writes st |} in
    if Z.eqb s 0 then c st' else (Exited s, st').
Proof. unfold seq, invoke. now destruct (prog (fs st)) as [s t]. Qed.

Lemma seq_or_else name prog b c st :
  (or_else (invoke name prog) b ;; c) st
  = let (s, t) := prog (fs st) in
    let st' := {| fs := t; out := out st;
                  calls := calls st ++ [(name, s)]; writes := writes st |} in
    if Z.eqb s 0 then c st' else (b ;; c) st'.
Proof.
  unfold seq, or_else, invoke. destruct (prog (fs st)) as [s t].
  now destruct (Z.eqb s 0).
Qed.

Lemma seq_chmod_hook content c t o l w :
  writable t ".husky/pre-commit" = true ->
  (chmod_x ".husky/pre-commit" ;; c)
    {| fs := write_file ".husky/pre-commit" content t;
       out := o; calls := l; writes := w |}
  = c {| fs := <[".husky/pre-commit" := {| data := content; exec := true |}]>
                 (write_file ".husky/pre-commit" content t);
         out := o; calls := l;
         writes := w ++ [("chmod +x " +:+ ".husky/pre-commit", 0%Z)] |}.
Proof. intros H. unfold seq. now rewrite chmod_x_hook. Qed.

Ltac unfold_script :=
  unfold Bootstrap.run, Bootstrap.setup, Bootstrap.step1_sanity,
    Bootstrap.step2_install, Bootstrap.step3_prettier, Bootstrap.step4_eslint,
    Bootstrap.step5_stylelint, Bootstrap.step6_lighthouse,
    Bootstrap.step7_scripts, Bootstrap.step8_husky, Bootstrap.step9_workflow,
    Bootstrap.summary, external.

Ltac sh_simpl :=
  cbn beta iota zeta delta
    [initial fs out calls writes app exit_code fst snd Z.eqb].

(** The lines the script prints are set aside under names while it is
    run, and brought back where a proof looks at them. *)
Ltac hide_lines :=
  repeat match goal with
         | |- context [echo (String ?a ?s)] =>
             let l := fresh "line" in set (l := String a s)
         end.

Ltac show_lines :=
  repeat match goal with l := _ : string |- _ => subst l end.

(** Run the commands at the head that cannot branch.  The equations are
    applied where the command stands in the goal as written, never up to
    conversion. *)
Ltac run_head :=
  match goal with
  | |- context [((?a ;; ?b) ;; ?c) ?st] => rewrite (seq_assoc a b c st)
  | |- context [(echo ?l ;; ?c) ?st] => rewrite (seq_echo l c st)
  | |- context [(exit ?s ;; ?c) ?st] => rewrite (seq_exit s c st)
  end.

Ltac run_on := sh_simpl; repeat (run_head; sh_simpl).

Ltac case_status :=
  match goal with
  | |- context [(invoke ?n ?prog ;; ?c) ?st] =>
      rewrite (seq_invoke n prog c st)
  | |- context [(or_else (invoke ?n ?prog) ?b ;; ?c) ?st] =>
      rewrite (seq_or_else n prog b c st)
  end;
  sh_simpl;
  match goal with
  | |- context [run_external ?M ?l ?t] =>
      let s := fresh "s" in let t' := fresh "t" in
      destruct (run_external M l t) as [s t'] eqn:?; destruct s
  | |- context [Bootstrap.node_program ?M ?t] =>
      let s := fresh "s" in let t' := fresh "t" in
      destruct (Bootstrap.node_program M t) as [s t'] eqn:?; destruct s
  end;
  sh_simpl; run_on.

Ltac case_write :=
  match goal with
  | |- context [(cat_to ?p ?x ;; ?c) ?st] => rewrite (seq_cat_to p x c st)
  end;
  sh_simpl;
  match goal with
  | |- context [if writable ?t ?p then _ else _] =>
      destruct (writable t p) eqn:?
  end;
  sh_simpl; run_on.

Ltac case_mkdir :=
  match goal with
  | |- context [(mkdir_p ?d ;; ?c) ?st] => rewrite (seq_mkdir_p d c st)
  end;
  sh_simpl;
  match goal with
  | |- context [mkdir_p_tree ?d ?t] =>
      let t' := fresh "t" in destruct (mkdir_p_tree d t) as [[] t'] eqn:?
  end;
  sh_simpl; run_on.

Ltac case_chmod :=
  match goal with
  | H : writable ?t ".husky/pre-commit" = true
    |- context [(chmod_x _ ;; ?c) {| fs := write_file _ ?x ?t; out := ?o;
                                     calls := ?l; writes := ?w |}] =>
      rewrite (seq_chmod_hook x c t o l w H)
  end;
  sh_simpl; run_on.

(** The end of the script: the last [echo] of the summary. *)
Ltac close_run := unfold echo; sh_simpl.

(** At a leaf of the execution the statement is brought back and the run
    it is about is the state reached. *)
Ltac at_leaf leaf :=
  match goal with Q := _ : _ -> Prop |- _ => subst Q end; sh_simpl; leaf.

Ltac walk_workflow leaf :=
  case_mkdir;
  [ case_write; [ close_run; at_leaf leaf | at_leaf leaf ] | at_leaf leaf ].

Ltac walk_fallback leaf :=
  case_write; [ case_chmod; walk_workflow leaf | at_leaf leaf ].

(** The whole script: the statement about the run is set aside under a
    name, the script is run along each of its paths, and [leaf] proves the
    statement at the end of each. *)
Ltac walk leaf :=
  match goal with
  | |- context [Bootstrap.run ?M ?t] =>
      pattern (Bootstrap.run M t);
      match goal with |- ?P _ => set (statement := P) end
  end;
  unfold_script; hide_lines; run_on;
  match goal with
  | |- context [(if_then (test_not_f ?p) ?body ;; ?c) ?st] =>
      rewrite (seq_if_not_f p body c st)
  end;
  sh_simpl;
  match goal with
  | |- context [is_file ?t "package.json"] =>
      destruct (is_file t "package.json") eqn:?
  end;
  run_on;
  [ case_status;
    [ case_write;
      [ case_write;
        [ case_write;
          [ case_write;
            [ case_write;
              [ case_write;
                [ case_write;
                  [ case_status;
                    [ case_status;
                      [ case_mkdir;
                        [ case_status;
                          [ walk_workflow leaf
                          | walk_fallback leaf
                          | walk_fallback leaf ]
                        | at_leaf leaf ]
                      | at_leaf leaf | at_leaf leaf ]
                    | at_leaf leaf | at_leaf leaf ]
                  | at_leaf leaf ]
                | at_leaf leaf ]
              | at_leaf leaf ]
            | at_leaf leaf ]
          | at_leaf leaf ]
        | at_leaf leaf ]
      | at_leaf leaf ]
    | at_leaf leaf | at_leaf leaf ]
  | at_leaf leaf ].

Ltac no_such_call :=
  solve [let H := fresh in intros H; exfalso; split_in H].

Ltac in_list :=
  cbn [In]; solve [repeat (first [left; reflexivity | right])].

(** Membership in a log that is known entry by entry, with the names of
    the operations computed. *)
Ltac split_log H :=
  vm_compute in H;
  repeat (destruct H as [H|H]; [try discriminate H|]);
  try (exfalso; exact H).

(** *** The Node program on the file *)

(** The Node program writes [package.json] and nothing else. *)
Lemma node_lookup_other M p t s t' :
  p <> "package.json" -> Bootstrap.node_program M t = (s, t') ->
  t' !! p = t !! p.
Proof.
  intros Hp. unfold Bootstrap.node_program.
  destruct (t !! "package.json") as [f|]; [|now intros [= _ <-]].
  destruct (JSON_parse M (data f)) as [pkg|]; [|now intros [= _ <-]].
  destruct (update_scripts pkg) as [pkg'|]; intros [= _ <-]; [|reflexivity].
  apply write_file_other. congruence.
Qed.


Lemma node_program_writes M t f pkg :
  t !! "package.json" = Some f -> JSON_parse M (data f) = Some pkg ->
  holder pkg = true ->
  Bootstrap.node_program M t
  = (0%Z, write_file "package.json" (JSON_stringify M (merged pkg)) t).
Proof.
  intros Hf Hp Hh. unfold Bootstrap.node_program.
  now rewrite Hf, Hp, update_scripts_holder.
Qed.

Lemma write_file_twice p content (t : tree) :
  write_file p content (write_file p content t) = write_file p content t.
Proof.
  unfold write_file. rewrite tree_lookup_insert. cbn [exec].
  now rewrite tree_insert_insert.
Qed.

(** X13: run on the file it has written, the program writes the same file
    again, provided [JSON.parse] reads back what [JSON.stringify] printed. *)
Theorem node_program_twice M t f pkg :
  t !! "package.json" = Some f -> JSON_parse M (data f) = Some pkg ->
  holder pkg = true ->
  JSON_parse M (JSON_stringify M (merged pkg)) = Some (merged pkg) ->
  exists t1,
    Bootstrap.node_program M t = (0%Z, t1) /\
    Bootstrap.node_program M t1 = (0%Z, t1).
Proof.
  intros Hf Hp Hh Hrt. eexists.
  split; [now apply (node_program_writes M t f pkg)|].
  set (text := JSON_stringify M (merged pkg)).
  rewrite (node_program_writes M (write_file "package.json" text t)
             {| data := text; exec := exec f |} (merged pkg)).
  - now rewrite merged_merged, write_file_twice.
  - unfold write_file. rewrite Hf. apply tree_lookup_insert.
  - exact Hrt.
  - unfold merged. now rewrite holder_assign.
Qed.

(** The fresh project on a machine that reads back what it prints. *)
Example node_program_twice_fresh :
  exists t1,
    Bootstrap.node_program Instances.printing_merged Instances.fresh_project
    = (0%Z, t1) /\
    Bootstrap.node_program Instances.printing_merged t1 = (0%Z, t1).
Proof.
  apply (node_program_twice Instances.printing_merged Instances.fresh_project
           (Instances.plain "{}") (VObj []));
    reflexivity.
Defined.

(** *** The manifest check *)

(** Without a manifest the run is the banner, the guidance and [exit 1]. *)
Lemma run_without_manifest M t :
  is_file t "package.json" = false ->
  Bootstrap.run M t =
    (1%Z,
     {| fs := t;
        out := ["=== Quality Gates Setup Script ===";
                "No package.json found. Run 'npm init -y' first, then rerun this script."];
        calls := []; writes := [] |}).
Proof.
  intros H. unfold_script. run_on. rewrite seq_if_not_f. sh_simpl.
  rewrite H. run_on. reflexivity.
Qed.

(** C6: when [package.json] is absent the script exits with status 1 after
    printing the banner and the guidance to run [npm init -y]; no external
    command has been invoked and the working tree is the one it started
    from. *)
Theorem C6_manifest_absent_stops M t :
  is_file t "package.json" = false ->
  let (code, st) := Bootstrap.run M t in
  code = 1%Z /\
  out st = ["=== Quality Gates Setup Script ===";
            "No package.json found. Run 'npm init -y' first, then rerun this script."] /\
  calls st = [] /\
  fs st = t.
Proof. intros H. rewrite run_without_manifest by assumption. auto. Qed.

(** On the empty tree, with a machine on which every command succeeds. *)
Lemma C6_empty_tree :
  let (code, st) := Bootstrap.run Instances.calm ∅ in
  code = 1%Z /\
  out st = ["=== Quality Gates Setup Script ===";
            "No package.json found. Run 'npm init -y' first, then rerun this script."] /\
  calls st = [] /\
  fs st = ∅.
Proof. apply (C6_manifest_absent_stops Instances.calm ∅). reflexivity. Defined.

(** *** The pre-commit hook *)

(** The hook file at a leaf of the execution. *)
Ltac hook_lookup :=
  repeat first
    [ rewrite write_file_other by discriminate
    | match goal with
      | E : mkdir_p_tree ?d ?t = (_, ?t') |- context [?t' !! ?p] =>
          rewrite (mkdir_p_lookup d t _ t' p E)
      end ];
  apply tree_lookup_insert.

Ltac fallback_leaf :=
  let H := fresh in let Hs := fresh in
  intros H Hs;
  first
    [ solve [exfalso; split_in H; congruence]
    | exists 1%Z; split; [in_list|];
      split; [intros X; discriminate X | intros _; reflexivity]
    | exists 0%Z; split; [in_list|];
      split; [intros _ | intros X; exfalso; now apply X];
      split; [hook_lookup|]; split; [reflexivity|];
      split; [intros X; first [reflexivity | discriminate X]
             | intros X; first [reflexivity | discriminate X]] ].

(** C1 as stated fails: in a project where [.husky/pre-commit] is a
    directory, and with [husky add] ending with status 1, the fallback
    cannot write the hook; the script ends with status 1 and there is no
    hook file. *)
Lemma C1_hook_path_blocked :
  let M := Instances.failing Bootstrap.husky_add 1 in
  fst (Bootstrap.run M Instances.hook_blocked_project) = 1%Z /\
  ~ hook_fallback_always_installs M Instances.hook_blocked_project.
Proof.
  cbv zeta. split; [vm_compute; reflexivity|]. intros H.
  destruct (H 1%Z) as (f & E & _); [vm_compute; auto 10 | discriminate | ].
  vm_compute in E. discriminate E.
Qed.

(** C1, as the code has it: in every run whose log shows [husky add] ending
    with a non-zero status, the fallback is attempted: the log of file
    operations has [cat > .husky/pre-commit].  When that write succeeded,
    the hook file holds the fallback content and is executable, the content
    contains [npm run precommit], and the exit code is 0 exactly when every
    file operation of the run succeeded (those of step 9 are still to
    come); when it failed, the exit code is 1.  The status of [husky add]
    plays no part in the exit code. *)
Theorem C1_hook_fallback M t s :
  let code := fst (Bootstrap.run M t) in
  let final := snd (Bootstrap.run M t) in
  In (Bootstrap.husky_add, s) (calls final) ->
  s <> 0%Z ->
  exists ws,
    In (cat_hook, ws) (writes final) /\
    (ws = 0%Z ->
     fs final !! ".husky/pre-commit" = Some fallback_hook /\
     occurs_in "npm run precommit" (data fallback_hook) = true /\
     (code = 0%Z <-> all_succeeded (writes final) = true)) /\
    (ws <> 0%Z -> code = 1%Z).
Proof. cbv zeta. walk fallback_leaf. Qed.

(** A project in which [husky add] ends with status 1 and nothing is in the
    way: the hook is installed and the run ends with status 0. *)
Lemma C1_hook_already_present :
  let M := Instances.failing Bootstrap.husky_add 1 in
  let code := fst (Bootstrap.run M Instances.fresh_project) in
  let final := snd (Bootstrap.run M Instances.fresh_project) in
  (code = 0%Z /\
   fs final !! ".husky/pre-commit" = Some fallback_hook) /\
  exists ws,
    In (cat_hook, ws) (writes final) /\
    (ws = 0%Z ->
     fs final !! ".husky/pre-commit" = Some fallback_hook /\
     occurs_in "npm run precommit" (data fallback_hook) = true /\
     (code = 0%Z <-> all_succeeded (writes final) = true)) /\
    (ws <> 0%Z -> code = 1%Z).
Proof.
  cbv zeta. split; [split; vm_compute; reflexivity|].
  apply (C1_hook_fallback (Instances.failing Bootstrap.husky_add 1)
           Instances.fresh_project 1%Z).
  - vm_compute. auto 10.
  - discriminate.
Defined.

(** *** The exit code *)

(** The parts of the exit-code statement at a leaf of the execution. *)
Ltac exit_code_leaf :=
  split; [|split; [|split; [|split; [|split]]]];
  [ let X := fresh in intros X; first [reflexivity | congruence]
  | let line := fresh "line" in let s := fresh "s" in
    let H := fresh "H" in let Hs := fresh "Hs" in let Hl := fresh "Hl" in
    intros line s H Hs Hl; split_in H;
    try (injection H as <- <-); congruence
  | let s := fresh "s" in let H := fresh "H" in let X := fresh in
    intros s H;
    first [ solve [exfalso; split_in H]
          | split; intros X;
            first [reflexivity | discriminate X
                  | vm_compute in X; discriminate X] ]
  | let op := fresh "op" in let s := fresh "s" in
    let H := fresh "H" in let Hs := fresh "Hs" in
    intros op s H Hs; split_in H;
    try (injection H as <- <-); first [reflexivity | congruence]
  | let X := fresh in let X1 := fresh in let X2 := fresh in
    let X3 := fresh in
    split;
    [ intros X;
      first [ discriminate X
            | split; [first [assumption | reflexivity] | split; reflexivity] ]
    | intros (X1 & X2 & X3);
      first [ reflexivity | congruence
            | vm_compute in X2; discriminate X2
            | vm_compute in X3; discriminate X3 ] ]
  | let X := fresh in
    intros X;
    first [ congruence
          | left; first [assumption | reflexivity]
          | right; left; exists Bootstrap.npm_install; split; in_list
          | right; left; exists Bootstrap.node; split; in_list
          | right; left; exists Bootstrap.husky_install; split; in_list
          | right; right; split; [reflexivity | eexists; in_list] ] ].

(** C2, as the code has it: the exit code is 1 when the manifest is absent;
    a non-zero status of any logged command other than [husky add] is the
    exit code of the script, unchanged; in a run that got as far as
    [husky add] the exit code is 0 exactly when every file operation
    succeeded, whatever [husky add] returned; a failed file operation of
    the shell makes the exit code 1; the exit code is 0 exactly when the
    manifest is there, every command other than [husky add] ended with 0
    and every file operation succeeded; and a non-zero exit code comes from
    the manifest check, from one of [npm install], [node] and
    [husky install], whose status it is, or from a failed file
    operation. *)
Theorem C2_exit_code_cases M t :
  let code := fst (Bootstrap.run M t) in
  let final := snd (Bootstrap.run M t) in
  (is_file t "package.json" = false -> code = 1%Z) /\
  (forall line s,
      In (line, s) (calls final) -> s <> 0%Z -> line <> Bootstrap.husky_add ->
      code = s) /\
  (forall s,
      In (Bootstrap.husky_add, s) (calls final) ->
      (code = 0%Z <-> all_succeeded (writes final) = true)) /\
  (forall op s, In (op, s) (writes final) -> s <> 0%Z -> code = 1%Z) /\
  (code = 0%Z <->
   is_file t "package.json" = true /\
   all_succeeded (apart_from Bootstrap.husky_add (calls final)) = true /\
   all_succeeded (writes final) = true) /\
  (code <> 0%Z ->
   is_file t "package.json" = false \/
   (exists line,
      In line [Bootstrap.npm_install; Bootstrap.node; Bootstrap.husky_install]
      /\ In (line, code) (calls final)) \/
   (code = 1%Z /\ exists op, In (op, 1%Z) (writes final))).
Proof. cbv zeta. walk exit_code_leaf. Qed.

(** C2 as stated fails: with a manifest in place and [npm install]
    succeeding, a failure of [husky install] ends the script with status 1;
    and a failure of [npm install] with status 2 ends it with status 2, not
    1. *)
Lemma C2_later_failure_is_fatal :
  ~ exit_code_only_from_steps_1_2
      (Instances.failing Bootstrap.husky_install 1) Instances.fresh_project
  /\
  ~ exit_code_only_from_steps_1_2
      (Instances.failing Bootstrap.npm_install 2) Instances.fresh_project.
Proof.
  split; intros [H1 H2].
  - assert (E : fst (Bootstrap.run (Instances.failing Bootstrap.husky_install 1)
                       Instances.fresh_project) = 1%Z)
      by (vm_compute; reflexivity).
    rewrite E in H1. destruct H1 as [H|H]; [discriminate | discriminate H | ].
    apply H. vm_compute. reflexivity.
  - assert (E : fst (Bootstrap.run (Instances.failing Bootstrap.npm_install 2)
                       Instances.fresh_project) = 2%Z)
      by (vm_compute; reflexivity).
    rewrite E in H2. assert (X : 2%Z = 1%Z); [|discriminate X].
    apply H2. right. vm_compute. discriminate.
Qed.

(** *** The tool-configuration files *)
























(** ** The pipeline *)

Import Pipeline.

Ltac pipe_red :=
  cbv beta iota zeta delta
    [run_job run_steps run_step build_and_test deploy steps body
     lighthouse_step lighthouse_script
     seq or_else if_then exit echo external invoke
     initial fs out calls writes exit_code fst snd app Z.eqb].

Ltac case_call :=
  match goal with
  | |- context [run_external ?M ?l ?t] =>
      let s := fresh "s" in let t' := fresh "t" in
      destruct (run_external M l t) as [s t'] eqn:?; destruct s; pipe_red
  end.

Lemma lighthouse_step_succeeds M st :
  fst (run_step M (lighthouse_step M) st) = 0%Z.
Proof. destruct st as [t o c w]. pipe_red. case_call; reflexivity. Qed.

(** C7: the Lighthouse step ends with status 0 from every state, whatever
    [npm run lhci] returns; and in every run of the build-and-test job
    whose log shows [npm run lhci] with some exit status, zero or not, the
    job succeeds. *)
Theorem C7_lighthouse_nonfatal M t s :
  In ("npm run lhci", s)
     (calls (snd (run_job M (build_and_test M) (initial t)))) ->
  (forall st, fst (run_step M (lighthouse_step M) st) = 0%Z) /\
  fst (run_job M (build_and_test M) (initial t)) = Success.
Proof.
  intros H. split; [apply lighthouse_step_succeeds|]. revert H.
  pipe_red.
  do 6 (case_call; [|no_such_call..]).
  case_call; reflexivity.
Qed.

(** A runner on which [npm run lhci] ends with status 1. *)
Lemma C7_audit_fails_job_passes :
  let M := Instances.failing "npm run lhci" 1 in
  In ("npm run lhci", 1%Z)
     (calls (snd (run_job M (build_and_test M)
                    (initial Instances.fresh_project)))) /\
  fst (run_job M (build_and_test M) (initial Instances.fresh_project))
  = Success.
Proof.
  cbv zeta.
  assert (H : In ("npm run lhci", 1%Z)
     (calls (snd (run_job (Instances.failing "npm run lhci" 1)
                    (build_and_test (Instances.failing "npm run lhci" 1))
                    (initial Instances.fresh_project))))).
  { vm_compute. auto 10. }
  split; [exact H|].
  exact (proj2 (C7_lighthouse_nonfatal (Instances.failing "npm run lhci" 1)
                  Instances.fresh_project 1%Z H)).
Defined.

Lemma run_job_not_skipped M j st : fst (run_job M j st) <> Skipped.
Proof.
  unfold run_job. destruct (run_steps M (steps j) st) as [[] ?]; discriminate.
Qed.

(** C8: in every run of the workflow the deploy job is executed exactly
    when the build-and-test job succeeded and the ref is
    [refs/heads/main]; in every other run it is skipped. *)
Theorem C8_deploy_gated M ctx t :
  let results := fst (run_workflow M ctx (ci_cd M) t) in
  (executed (outcome_of "deploy" results) = true <->
   outcome_of "build-and-test" results = Some Success /\
   github_ref ctx = "refs/heads/main") /\
  (executed (outcome_of "deploy" results) = false ->
   outcome_of "deploy" results = Some Skipped).
Proof.
  cbv zeta. unfold run_workflow, ci_cd. cbn [jobs run_jobs].
  change (needs_met [] (build_and_test M)) with true.
  change (condition (build_and_test M) ctx) with true.
  cbn [andb].
  destruct (run_job M (build_and_test M) (initial t)) as [o1 st1] eqn:E1.
  cbn [app].
  change (condition (deploy M) ctx) with (on_main ctx).
  unfold on_main.
  destruct (String.eqb_spec (github_ref ctx) "refs/heads/main") as [Href|Href].
  - destruct o1.
    + change (needs_met [(job_id (build_and_test M), Success)] (deploy M))
        with true.
      cbn [andb].
      pose proof (run_job_not_skipped M (deploy M) st1) as Hns.
      destruct (run_job M (deploy M) st1) as [o2 st2]. cbn [fst] in *.
      cbn. destruct o2; cbn; try tauto; split; try tauto; discriminate.
    + change (needs_met [(job_id (build_and_test M), Failure)] (deploy M))
        with false.
      cbn. split; [|reflexivity].
      split; [discriminate|]. intros [H _]. discriminate H.
    + exfalso.
      pose proof (run_job_not_skipped M (build_and_test M) (initial t)) as Hns.
      rewrite E1 in Hns. now apply Hns.
  - rewrite andb_false_r. cbn. split; [|reflexivity].
    split; [discriminate|]. intros [_ H]. contradiction.
Qed.

(** * Further properties *)

(** ** More on the Eleventy configuration *)

(** X24: each variant keeps the passthrough globs registered before it and
    adds its own after them; the added globs include [src/style.css] and
    all lie below the input directory; and the options returned do not
    depend on the [eleventyConfig] passed in. *)
Theorem passthrough_registrations :
  Forall
    (fun variant =>
       forall c, exists added,
         Eleventy.passthrough (fst (variant c))
         = Eleventy.passthrough c ++ added /\
         In "src/style.css" added /\
         Forall (fun g =>
                   Eleventy.nested_under
                     (Eleventy.input (Eleventy.dir (snd (variant c)))) g
                   = true) added /\
         snd (variant c) = snd (variant {| Eleventy.passthrough := [] |}))
    Eleventy.variants.
Proof.
  unfold Eleventy.variants.
  repeat constructor; intros c;
    cbn [Eleventy.config_with_cname Eleventy.config_minimal
         Eleventy.config_with_prefix Eleventy.addPassthroughCopy
         Eleventy.passthrough fst snd];
    rewrite <- ?app_assoc; cbn [app];
    eexists; (split; [reflexivity|]);
    (split; [in_list|]); (split; [|reflexivity]);
    repeat constructor.
Qed.

(** ** More on the merge of the command aliases *)

(** *** Instances of the merge theorems *)

(** X1 at [site_manifest]. *)
Lemma update_scripts_idempotent_site :
  update_scripts (merged (VObj site_manifest))
  = Some (merged (VObj site_manifest)).
Proof.
  apply (update_scripts_idempotent (VObj site_manifest)).
  vm_compute. reflexivity.
Defined.

(** X2 at the [name] of [site_manifest]. *)
Lemma top_level_fields_kept_site :
  field (merged (VObj site_manifest)) "name"
  = field (VObj site_manifest) "name".
Proof.
  apply (top_level_fields_kept site_manifest (merged (VObj site_manifest))
           "name").
  - vm_compute. reflexivity.
  - discriminate.
Defined.

(** X3 at the empty [lint] of [site_manifest]. *)
Lemma alias_entry_site_lint :
  script_entry (merged (VObj site_manifest)) "lint"
  = Some (or_default (default VUndefined (own "lint" site_scripts))
            (VStr "npm run lint:js && npm run lint:css")).
Proof.
  apply (alias_entry_after_merge site_manifest site_scripts
           (merged (VObj site_manifest))).
  - reflexivity.
  - vm_compute. reflexivity.
  - in_list.
Defined.

(** X4 at the [build] of [site_manifest]. *)
Lemma truthy_entries_kept_site :
  script_entry (merged (VObj site_manifest)) "build" = Some (VStr "make").
Proof.
  apply (truthy_entries_kept (VObj site_manifest)
           (merged (VObj site_manifest)) "build" (VStr "make")).
  - vm_compute. reflexivity.
  - reflexivity.
  - reflexivity.
Defined.

(** X5 at the [test] of [site_manifest]. *)
Lemma other_entries_kept_site :
  script_entry (merged (VObj site_manifest)) "test" = Some (VStr "jest").
Proof.
  apply (other_entries_kept (VObj site_manifest)
           (merged (VObj site_manifest)) "test" (VStr "jest")).
  - vm_compute. reflexivity.
  - intros H. split_in H.
  - reflexivity.
Defined.

(** X6: the merge dies of a [TypeError] exactly when the parsed manifest is
    neither an object nor an array ([null], a number, a string, a
    boolean). *)
Theorem update_scripts_throws_iff pkg :
  update_scripts pkg = None <-> holder pkg = false.
Proof.
  split.
  - intros H. destruct (holder pkg) eqn:E; [|reflexivity].
    rewrite update_scripts_holder in H by assumption. discriminate.
  - intros H. destruct (update_scripts pkg) eqn:E; [|reflexivity].
    apply update_scripts_inv in E as [E _]. congruence.
Qed.

Lemma put_absent k v ps : own k ps = None -> put k v ps = ps ++ [(k, v)].
Proof.
  induction ps as [|[k0 v0] ps IH]; cbn; [reflexivity|].
  destruct (String.eqb k k0); [discriminate|]. intros H. now rewrite IH.
Qed.

Lemma fill_nothing : fill defaults (VObj []) = all_defaults.
Proof. reflexivity. Qed.

(** X7: when the manifest has no [scripts] field, or a falsy one, the merge
    sets it to the object of the ten defaults in program order; a missing
    field is added after the existing ones. *)
Theorem scripts_missing_or_falsy ps pkg' :
  truthy (default VUndefined (own "scripts" ps)) = false ->
  update_scripts (VObj ps) = Some pkg' ->
  pkg' = VObj (put "scripts" all_defaults ps) /\
  (own "scripts" ps = None -> pkg' = VObj (ps ++ [("scripts", all_defaults)])).
Proof.
  intros Hf [_ ->]%update_scripts_inv.
  assert (E : merged (VObj ps) = VObj (put "scripts" all_defaults ps)).
  { unfold merged. cbn [prop assign]. unfold or_default. rewrite Hf.
    now rewrite fill_nothing. }
  split; [exact E|]. intros Hn. rewrite E. now rewrite put_absent.
Qed.

(** A manifest with a name only. *)
Lemma scripts_missing_bare :
  merged (VObj bare_manifest) = VObj (put "scripts" all_defaults bare_manifest)
  /\
  (own "scripts" bare_manifest = None ->
   merged (VObj bare_manifest)
   = VObj (bare_manifest ++ [("scripts", all_defaults)])).
Proof.
  apply (scripts_missing_or_falsy bare_manifest (merged (VObj bare_manifest))).
  - reflexivity.
  - vm_compute. reflexivity.
Defined.

(** X8: when [scripts] holds a truthy primitive (a non-empty string, a
    non-zero number, [true]) the assignments are dropped silently: the
    merge completes and the manifest is what it was, without any alias. *)
Theorem primitive_scripts_left_alone ps s :
  own "scripts" ps = Some s -> truthy s = true -> holder s = false ->
  update_scripts (VObj ps) = Some (VObj ps).
Proof.
  intros Hs Ht Hh. rewrite update_scripts_holder by reflexivity.
  unfold merged. cbn [prop assign]. rewrite Hs. cbn [default from_option id].
  unfold or_default. rewrite Ht.
  rewrite fill_fixed by (intros H; congruence).
  now rewrite put_same.
Qed.

(** A manifest whose [scripts] is a string. *)
Lemma primitive_scripts_odd :
  update_scripts (VObj odd_manifest) = Some (VObj odd_manifest).
Proof.
  apply (primitive_scripts_left_alone odd_manifest (VStr "none"));
    reflexivity.
Defined.

Lemma keys_put ss k v :
  map fst (put k v ss) = map fst ss ++ (if absent ss k then [k] else []).
Proof.
  unfold absent. induction ss as [|[k0 v0] ss IH]; cbn; [reflexivity|].
  destruct (String.eqb_spec k k0); cbn.
  - subst. now rewrite app_nil_r.
  - now rewrite IH.
Qed.

Lemma truthy_present ss k :
  truthy (default VUndefined (own k ss)) = true -> absent ss k = false.
Proof. unfold absent. destruct (own k ss); [reflexivity|discriminate]. Qed.

Lemma fill_keys ds ss ss' :
  List.NoDup (map fst ds) ->
  fill ds (VObj ss) = VObj ss' ->
  map fst ss' = map fst ss ++ List.filter (absent ss) (map fst ds).
Proof.
  revert ss. induction ds as [|kd ds IH]; intros ss Hnd; cbn.
  - intros [= ->]. now rewrite app_nil_r.
  - inversion Hnd as [|? ? Hnot Hnd']; subst.
    rewrite fill_one_obj. intros E. rewrite (IH _ Hnd' E). clear IH E.
    set (ss1 := if truthy _ then ss else _).
    assert (Hk : map fst ss1 = map fst ss ++ (if absent ss kd.1 then [kd.1] else [])).
    { unfold ss1. destruct (truthy _) eqn:Et.
      - rewrite (truthy_present _ _ Et). now rewrite app_nil_r.
      - apply keys_put. }
    assert (Hf : List.filter (absent ss1) (map fst ds) = List.filter (absent ss) (map fst ds)).
    { apply List.filter_ext_in. intros k Hin. unfold absent, ss1.
      destruct (truthy _); [reflexivity|].
      rewrite own_put_other; [reflexivity|]. intros <-. contradiction. }
    rewrite Hk, Hf, <- app_assoc. f_equal.
    destruct (absent ss kd.1); reflexivity.
Qed.

(** X9: the merge keeps the order of the top-level fields and of the
    existing scripts, and appends the aliases that were absent after them,
    in program order. *)
Theorem key_order_after_merge ps ss pkg' :
  own "scripts" ps = Some (VObj ss) ->
  update_scripts (VObj ps) = Some pkg' ->
  exists ps' ss',
    pkg' = VObj ps' /\ own "scripts" ps' = Some (VObj ss') /\
    map fst ps' = map fst ps /\
    map fst ss' = map fst ss ++ List.filter (absent ss) aliases.
Proof.
  intros Es [_ ->]%update_scripts_inv.
  destruct (fill_obj defaults ss) as [ss' E].
  exists (put "scripts" (VObj ss') ps), ss'.
  split; [|split; [|split]].
  - unfold merged. cbn [prop assign]. rewrite Es.
    cbn [default from_option id or_default truthy]. now rewrite E.
  - apply own_put_same.
  - rewrite keys_put. unfold absent. rewrite Es. apply app_nil_r.
  - apply (fill_keys defaults ss ss' defaults_distinct E).
Qed.

(** The scripts of [site_manifest]: [build] and the empty [lint] stay in
    place, the other eight aliases follow. *)
Lemma key_order_site :
  exists ps' ss',
    merged (VObj site_manifest) = VObj ps' /\
    own "scripts" ps' = Some (VObj ss') /\
    map fst ps' = map fst site_manifest /\
    map fst ss' = map fst site_scripts ++ List.filter (absent site_scripts) aliases.
Proof.
  apply (key_order_after_merge site_manifest site_scripts
           (merged (VObj site_manifest))).
  - reflexivity.
  - vm_compute. reflexivity.
Defined.

(** What [scripts] counts as for the merge, entry by entry. *)
Lemma takes_aliases_entries ps :
  takes_aliases ps = true ->
  exists ss,
    or_default (default VUndefined (own "scripts" ps)) (VObj []) = VObj ss /\
    forall k, own k ss = script_entry (VObj ps) k.
Proof.
  unfold takes_aliases, or_default, script_entry, field.
  destruct (own "scripts" ps) as [[| |b|x|s|es n|ss]|]; cbn;
    try discriminate; eauto.
  - destruct b; [discriminate|eauto].
  - destruct x; cbn; try discriminate; eauto.
  - destruct (String.eqb s ""); cbn; [eauto|discriminate].
Qed.

Lemma alias_default k : In k aliases -> exists d, In (k, d) defaults.
Proof. intros H. split_in H; subst k; eexists; in_list. Qed.

Lemma truthy_string c : truthy (VStr c) = true -> c <> "".
Proof.
  unfold truthy. destruct (String.eqb_spec c ""); [discriminate | auto].
Qed.

Lemma alias_command ps pkg' k :
  takes_aliases ps = true ->
  update_scripts (VObj ps) = Some pkg' ->
  In k aliases ->
  (forall v, script_entry (VObj ps) k = Some v -> exists c, v = VStr c) ->
  exists c, script_entry pkg' k = Some (VStr c) /\ c <> "".
Proof.
  intros Hta [_ ->]%update_scripts_inv Hk Hstr.
  destruct (takes_aliases_entries ps Hta) as (ss & Ess & Hss).
  destruct (alias_default k Hk) as [d Hd].
  assert (Hne : d <> "").
  { pose proof defaults_nonempty as H. rewrite List.Forall_forall in H.
    exact (H _ Hd). }
  pose proof (fill_at defaults (VObj ss) k d eq_refl defaults_distinct Hd Hne)
    as Hat.
  unfold merged, script_entry, field. cbn [assign prop]. rewrite Ess.
  rewrite own_put_same.
  destruct (fill_obj defaults ss) as [ss' E]. rewrite E in *. cbn [prop] in Hat.
  assert (Hc : exists c, or_default (default VUndefined (own k ss)) (VStr d)
                         = VStr c /\ c <> "").
  { unfold or_default. rewrite Hss.
    destruct (script_entry (VObj ps) k) as [v|] eqn:Ev; cbn.
    - destruct (Hstr v eq_refl) as [c ->].
      destruct (truthy (VStr c)) eqn:Et; eauto using truthy_string.
    - eauto. }
  destruct Hc as (c & Hc & Hcne). rewrite Hc in Hat. exists c.
  split; [|assumption].
  destruct (own k ss') as [w|]; cbn in Hat; [now subst w | discriminate Hat].
Qed.

Lemma scripts_referenced_are_aliases :
  Forall (fun k => In k aliases) scripts_referenced.
Proof.
  apply List.Forall_forall. intros k H. vm_compute in H. vm_compute.
  repeat (destruct H as [<-|H]; [auto 12|]). destruct H.
Qed.

(** X10: after the merge of a manifest whose [scripts] is absent, falsy or
    an object, every script that the pre-commit hook, the workflow or a
    default command runs through [npm run] is registered with a command
    that is a non-empty string, provided that the entry the manifest had
    under that name, if it had one, was a string. *)
Theorem referenced_scripts_registered ps pkg' k :
  takes_aliases ps = true ->
  update_scripts (VObj ps) = Some pkg' ->
  In k scripts_referenced ->
  (forall v, script_entry (VObj ps) k = Some v -> exists c, v = VStr c) ->
  exists c, script_entry pkg' k = Some (VStr c) /\ c <> "".
Proof.
  intros Hta Hu Hk Hstr. apply (alias_command ps pkg' k Hta Hu); [|exact Hstr].
  pose proof scripts_referenced_are_aliases as H.
  rewrite List.Forall_forall in H. now apply H.
Qed.

(** The [lint] script that [precommit] runs, after the merge of
    [site_manifest], where it was there with an empty command. *)
Lemma referenced_lint_site :
  exists c, script_entry (merged (VObj site_manifest)) "lint" = Some (VStr c) /\
            c <> "".
Proof.
  apply (referenced_scripts_registered site_manifest
           (merged (VObj site_manifest)) "lint").
  - reflexivity.
  - vm_compute. reflexivity.
  - vm_compute. auto 10.
  - intros v H. vm_compute in H. injection H as <-. eauto.
Defined.

(** ** More on the Node program *)


(** X12: the Node program touches no file but [package.json], and leaves
    the mode of [package.json] as it was. *)
Theorem node_program_frame M t p :
  p <> "package.json" ->
  snd (Bootstrap.node_program M t) !! p = t !! p /\
  exec <$> snd (Bootstrap.node_program M t) !! "package.json"
  = exec <$> t !! "package.json".
Proof.
  intros Hp. unfold Bootstrap.node_program.
  destruct (t !! "package.json") as [f|] eqn:Ef;
    [|cbn [snd]; now rewrite Ef].
  destruct (JSON_parse M (data f)) as [pkg|]; [|cbn [snd]; now rewrite Ef].
  destruct (update_scripts pkg) as [pkg'|]; cbn [snd]; [|now rewrite Ef].
  split.
  - apply write_file_other. congruence.
  - unfold write_file. rewrite tree_lookup_insert, Ef. reflexivity.
Qed.

(** A readme next to the manifest of the fresh project. *)
Lemma node_program_frame_readme :
  snd (Bootstrap.node_program Instances.calm Instances.fresh_project)
    !! "README.md"
  = Instances.fresh_project !! "README.md" /\
  exec <$> snd (Bootstrap.node_program Instances.calm Instances.fresh_project)
             !! "package.json"
  = exec <$> Instances.fresh_project !! "package.json".
Proof.
  apply (node_program_frame Instances.calm Instances.fresh_project "README.md").
  discriminate.
Defined.

(** ** More on the bootstrap script *)

Ltac log_leaf :=
  split;
  [ first [ exists tool_order; reflexivity
          | exists (tl tool_order); reflexivity
          | exists (tl (tl tool_order)); reflexivity
          | exists (tl (tl (tl tool_order))); reflexivity
          | exists []; reflexivity ]
  | cbn [removelast]; repeat constructor ].

(** X14: in every run the commands invoked are an initial part of
    [npm install], [node], [husky install], [husky add], in that order,
    and every one but the last has ended with status 0: nothing runs after
    a failure, and no tool runs before the dependencies are installed. *)
Theorem tools_run_in_order M t :
  let log := calls (snd (Bootstrap.run M t)) in
  (exists rest, tool_order = map fst log ++ rest) /\
  Forall (fun e => snd e = 0%Z) (removelast log).
Proof. cbv zeta. walk log_leaf. Qed.

Ltac done_leaf :=
  unfold done_line; show_lines;
  split;
  [ let H := fresh in
    intros H; first [reflexivity | solve [exfalso; split_in H]]
  | let H := fresh in intros H; first [discriminate H | in_list] ].

(** X15: the line [=== Done. Quality gates are configured. ===] is printed
    exactly in the runs that exit with status 0. *)
Theorem done_line_iff_success M t :
  In done_line (out (snd (Bootstrap.run M t))) <-> fst (Bootstrap.run M t) = 0%Z.
Proof. walk done_leaf. Qed.

Ltac workflow_leaf :=
  let H := fresh in
  intros H;
  first [ discriminate H
        | split; [apply write_file_same | reflexivity] ].

(** X16: a run that exits with status 0 has invoked all four commands and
    leaves [.github/workflows/ci-cd.yml] with the fixed workflow text. *)
Theorem success_writes_workflow M t :
  fst (Bootstrap.run M t) = 0%Z ->
  content_at (fs (snd (Bootstrap.run M t))) ".github/workflows/ci-cd.yml"
  = Some Bootstrap.ci_cd_yml /\
  map fst (calls (snd (Bootstrap.run M t))) = tool_order.
Proof. walk workflow_leaf. Qed.

(** The fresh project on the machine where everything succeeds. *)
Lemma success_writes_workflow_fresh :
  content_at (fs (snd (Bootstrap.run Instances.calm Instances.fresh_project)))
    ".github/workflows/ci-cd.yml"
  = Some Bootstrap.ci_cd_yml /\
  map fst (calls (snd (Bootstrap.run Instances.calm Instances.fresh_project)))
  = tool_order.
Proof.
  apply (success_writes_workflow Instances.calm Instances.fresh_project).
  vm_compute. reflexivity.
Defined.

Lemma lookup_framed M line p t s t' :
  leaves_alone M line p -> run_external M line t = (s, t') -> t' !! p = t !! p.
Proof. intros F E. specialize (F t). now rewrite E in F. Qed.

Ltac peel_lookup :=
  repeat first
    [ rewrite write_file_other by congruence
    | rewrite tree_lookup_insert_ne by congruence
    | match goal with
      | E : mkdir_p_tree ?d ?t = (_, ?t') |- context [?t' !! ?p] =>
          rewrite (mkdir_p_lookup d t _ t' p E)
      | F : leaves_alone ?M ?l ?p, E : run_external ?M ?l ?t = (_, ?t')
        |- context [?t' !! ?p] => rewrite (lookup_framed M l p t _ t' F E)
      | E : Bootstrap.node_program ?M ?t = (_, ?t')
        |- context [?t' !! ?p] =>
          rewrite (node_lookup_other M p t _ t') by (congruence || exact E)
      end ];
  try reflexivity.

Ltac kept_hook_leaf :=
  let H := fresh in
  intros H;
  first
    [ solve [exfalso; split_in H]
    | split;
      [ let s := fresh "s" in let X := fresh in
        intros s X; split_log X
      | match goal with
        | E : run_external _ Bootstrap.husky_add ?t3 = _ |- _ =>
            exists t3; rewrite E; cbn [fst snd];
            split; [reflexivity|];
            let p := fresh "p" in let Hp := fresh "Hp" in
            intros p Hp; solve [peel_lookup]
        end ] ].

(** X17: when [husky add] succeeds the fallback is not run: the script
    never writes [.husky/pre-commit] itself, and every regular file of the
    final tree other than the workflow file is what [husky add] left
    there, the hook among them. *)
Theorem husky_add_success_keeps_hook M t :
  let final := snd (Bootstrap.run M t) in
  In (Bootstrap.husky_add, 0%Z) (calls final) ->
  (forall s, ~ In (cat_hook, s) (writes final)) /\
  exists t3,
    fst (run_external M Bootstrap.husky_add t3) = 0%Z /\
    forall p, p <> ".github/workflows/ci-cd.yml" ->
      fs final !! p = snd (run_external M Bootstrap.husky_add t3) !! p.
Proof. cbv zeta. walk kept_hook_leaf. Qed.

(** A machine on which [husky add] writes a hook of its own: that hook is
    the one in the final tree. *)
Lemma husky_add_success_fresh :
  let final := snd (Bootstrap.run Instances.hooking Instances.fresh_project) in
  fs final !! ".husky/pre-commit"
  = Some {| data := "npm run precommit"; exec := true |} /\
  (forall s, ~ In (cat_hook, s) (writes final)) /\
  exists t3,
    fst (run_external Instances.hooking Bootstrap.husky_add t3) = 0%Z /\
    forall p, p <> ".github/workflows/ci-cd.yml" ->
      fs final !! p
      = snd (run_external Instances.hooking Bootstrap.husky_add t3) !! p.
Proof.
  cbv zeta. split; [vm_compute; reflexivity|].
  apply (husky_add_success_keeps_hook Instances.hooking Instances.fresh_project).
  vm_compute. auto 10.
Defined.

(** X18: a file that is none of the seven tool configurations,
    [package.json], the hook and the workflow file, and that the three
    external tools leave alone, is after the run what it was before. *)
Theorem script_touches_only_its_files M t p :
  ~ In p written_paths ->
  leaves_alone M Bootstrap.npm_install p ->
  leaves_alone M Bootstrap.husky_install p ->
  leaves_alone M Bootstrap.husky_add p ->
  fs (snd (Bootstrap.run M t)) !! p = t !! p.
Proof.
  intros Hp F0 F1 F2.
  assert (H1 : p <> ".prettierrc") by (intros ->; apply Hp; in_list).
  assert (H2 : p <> ".prettierignore") by (intros ->; apply Hp; in_list).
  assert (H3 : p <> ".eslintrc.cjs") by (intros ->; apply Hp; in_list).
  assert (H4 : p <> ".eslintignore") by (intros ->; apply Hp; in_list).
  assert (H5 : p <> ".stylelintrc.json") by (intros ->; apply Hp; in_list).
  assert (H6 : p <> ".stylelintignore") by (intros ->; apply Hp; in_list).
  assert (H7 : p <> "lighthouserc.json") by (intros ->; apply Hp; in_list).
  assert (H8 : p <> "package.json") by (intros ->; apply Hp; in_list).
  assert (H9 : p <> ".husky/pre-commit") by (intros ->; apply Hp; in_list).
  assert (H10 : p <> ".github/workflows/ci-cd.yml")
    by (intros ->; apply Hp; in_list).
  clear Hp.
  walk ltac:(solve [peel_lookup]).
Qed.

(** A readme in the fresh project. *)
Lemma script_leaves_readme :
  fs (snd (Bootstrap.run Instances.calm Instances.fresh_project)) !! "README.md"
  = Instances.fresh_project !! "README.md".
Proof.
  apply (script_touches_only_its_files Instances.calm Instances.fresh_project
           "README.md").
  - intros H. vm_compute in H. split_in H.
  - intros t. reflexivity.
  - intros t. reflexivity.
  - intros t. reflexivity.
Defined.

Ltac stopped_here :=
  split; [reflexivity|]; split; [reflexivity|];
  match goal with
  | |- (exists before, ?log = before ++ _ /\ _) /\ _ =>
      split;
      [ exists (removelast log); split; reflexivity
      | let X := fresh in
        unfold done_line; show_lines; intros X; split_in X ]
  end.

Ltac stopped_leaf :=
  let H := fresh in let Hs := fresh in
  intros H Hs; split_in H;
  try (injection H as <- <-); try congruence; stopped_here.

(** X25: a file operation of the shell that fails ends the run: its status
    and the exit code are 1, it is the last entry of the log of file
    operations, every operation before it succeeded, and the closing line
    is not printed. *)
Theorem failed_operation_ends_run M t op s :
  let code := fst (Bootstrap.run M t) in
  let final := snd (Bootstrap.run M t) in
  In (op, s) (writes final) -> s <> 0%Z ->
  code = 1%Z /\ s = 1%Z /\
  (exists before,
      writes final = before ++ [(op, s)] /\ all_succeeded before = true) /\
  ~ In done_line (out final).
Proof. cbv zeta. walk stopped_leaf. Qed.

(** A project in which [.github] is a regular file: the run stops at
    [mkdir -p .github/workflows]. *)
Lemma failed_operation_github_blocked :
  let run := Bootstrap.run Instances.calm Instances.github_blocked_project in
  fst run = 1%Z /\ 1%Z = 1%Z /\
  (exists before,
      writes (snd run) = before ++ [("mkdir -p .github/workflows", 1%Z)] /\
      all_succeeded before = true) /\
  ~ In done_line (out (snd run)).
Proof.
  cbv zeta.
  apply (failed_operation_ends_run Instances.calm
           Instances.github_blocked_project "mkdir -p .github/workflows" 1%Z).
  - vm_compute. auto 20.
  - discriminate.
Defined.

(** ** More on the pipeline *)

Lemma run_workflow_ci_cd M ctx t :
  run_workflow M ctx (ci_cd M) t
  = let (o1, st1) := run_job M (build_and_test M) (initial t) in
    match o1 with
    | Success =>
        if on_main ctx then
          let (o2, st2) := run_job M (deploy M) st1 in
          ([("build-and-test", o1); ("deploy", o2)], st2)
        else ([("build-and-test", o1); ("deploy", Skipped)], st1)
    | _ => ([("build-and-test", o1); ("deploy", Skipped)], st1)
    end.
Proof.
  unfold run_workflow, ci_cd. cbn [jobs run_jobs].
  change (needs_met [] (build_and_test M)) with true.
  change (condition (build_and_test M) ctx) with true.
  cbn [andb].
  destruct (run_job M (build_and_test M) (initial t)) as [o1 st1].
  cbn [app].
  change (condition (deploy M) ctx) with (on_main ctx).
  destruct o1.
  - change (needs_met [(job_id (build_and_test M), Success)] (deploy M)) with true.
    cbn [andb]. destruct (on_main ctx); [|reflexivity].
    destruct (run_job M (deploy M) st1) as [o2 st2]. reflexivity.
  - reflexivity.
  - reflexivity.
Qed.

Ltac publish_leaf Href :=
  first
    [ solve [no_such_call]
    | intros _; split; [exact Href|]; repeat split; in_list ].

(** X19: whenever a run of the workflow invokes the publishing action, the
    ref is [refs/heads/main] and the formatting check, the linters and the
    build have all ended with status 0 in that run. *)
Theorem publish_only_after_checks_on_main M ctx t s :
  In (publish_action, s) (calls (snd (run_workflow M ctx (ci_cd M) t))) ->
  github_ref ctx = "refs/heads/main" /\
  In ("npm run format:check", 0%Z) (calls (snd (run_workflow M ctx (ci_cd M) t))) /\
  In ("npm run lint", 0%Z) (calls (snd (run_workflow M ctx (ci_cd M) t))) /\
  In ("npm run build", 0%Z) (calls (snd (run_workflow M ctx (ci_cd M) t))).
Proof.
  rewrite run_workflow_ci_cd. unfold publish_action, on_main.
  destruct (String.eqb_spec (github_ref ctx) "refs/heads/main") as [Href|Href];
    pipe_red.
  - do 6 (case_call; [|no_such_call..]).
    case_call.
    all: do 4 (case_call; [|no_such_call..]).
    all: case_call; publish_leaf Href.
  - do 6 (case_call; [|no_such_call..]).
    case_call; no_such_call.
Qed.

(** A push to main on the machine where everything succeeds. *)
Lemma publish_after_checks_push :
  let log := calls (snd (run_workflow Instances.calm push_to_main
                           (ci_cd Instances.calm) Instances.fresh_project)) in
  github_ref push_to_main = "refs/heads/main" /\
  In ("npm run format:check", 0%Z) log /\
  In ("npm run lint", 0%Z) log /\
  In ("npm run build", 0%Z) log.
Proof.
  cbv zeta.
  apply (publish_only_after_checks_on_main Instances.calm push_to_main
           Instances.fresh_project 0%Z).
  vm_compute. auto 20.
Defined.

Ltac warning_leaf :=
  split;
  [ let H := fresh in
    intros H; first [ solve [exfalso; split_in H]
                    | eexists; split; [|in_list]; discriminate ]
  | let H := fresh in let s := fresh "s" in let Hs := fresh in
    intros (s & Hs & H);
    first [ in_list
          | exfalso; split_in H; injection H as <-; now apply Hs ] ].

(** X20: the build-and-test job prints the Lighthouse warning exactly when
    [npm run lhci] was run and ended with a non-zero status. *)
Theorem warning_printed_iff_audit_failed M t :
  let st := snd (run_job M (build_and_test M) (initial t)) in
  In lighthouse_warning (out st) <->
  exists s, s <> 0%Z /\ In ("npm run lhci", s) (calls st).
Proof.
  cbv zeta. unfold lighthouse_warning. pipe_red.
  do 6 (case_call; [|warning_leaf..]).
  case_call; warning_leaf.
Qed.

Ltac failure_leaf :=
  let line := fresh "line" in let s := fresh "s" in
  let H := fresh "H" in let Hs := fresh "Hs" in let Hl := fresh "Hl" in
  intros line s H Hs Hl; split_in H;
  try (injection H as <- <-); try congruence; split; reflexivity.

(** X21: when a command of the build-and-test job other than
    [npm run lhci] ends with a non-zero status, the job fails and that
    command is the last one it has run. *)
Theorem build_job_stops_at_first_failure M t :
  forall line s,
    In (line, s) (calls (snd (run_job M (build_and_test M) (initial t)))) ->
    s <> 0%Z -> line <> "npm run lhci" ->
    fst (run_job M (build_and_test M) (initial t)) = Failure /\
    last (calls (snd (run_job M (build_and_test M) (initial t))))
    = Some (line, s).
Proof.
  pipe_red.
  do 6 (case_call; [|failure_leaf..]).
  case_call; failure_leaf.
Qed.

(** A runner on which the linters end with status 2. *)
Lemma build_job_stops_at_lint :
  let M := Instances.failing "npm run lint" 2 in
  fst (run_job M (build_and_test M) (initial Instances.fresh_project))
  = Failure /\
  last (calls (snd (run_job M (build_and_test M)
                      (initial Instances.fresh_project))))
  = Some ("npm run lint", 2%Z).
Proof.
  cbv zeta.
  apply (build_job_stops_at_first_failure (Instances.failing "npm run lint" 2)
           Instances.fresh_project "npm run lint" 2%Z).
  - vm_compute. auto 10.
  - discriminate.
  - discriminate.
Defined.

(** X22: a push starts the workflow only on [refs/heads/main], and in a run
    started by a push the deploy job is executed exactly when the
    build-and-test job succeeded. *)
Theorem push_deploys_when_build_passes M ctx t :
  github_event ctx = Push ->
  triggered (ci_cd M) ctx = true ->
  let results := fst (run_workflow M ctx (ci_cd M) t) in
  github_ref ctx = "refs/heads/main" /\
  (executed (outcome_of "deploy" results) = true <->
   outcome_of "build-and-test" results = Some Success).
Proof.
  intros He Ht.
  assert (Href : github_ref ctx = "refs/heads/main").
  { unfold triggered, ci_cd in Ht. cbn [triggers existsb] in Ht. rewrite He in Ht.
    rewrite !orb_false_r in Ht. now apply String.eqb_eq in Ht. }
  cbv zeta. split; [exact Href|].
  rewrite run_workflow_ci_cd. unfold on_main. rewrite Href, String.eqb_refl.
  destruct (run_job M (build_and_test M) (initial t)) as [o1 st1].
  destruct o1.
  - pose proof (run_job_not_skipped M (deploy M) st1) as Hns.
    destruct (run_job M (deploy M) st1) as [o2 st2]. cbn [fst] in *.
    destruct o2; cbn; tauto.
  - cbn. split; discriminate.
  - cbn. split; discriminate.
Qed.

(** A push to main. *)
Lemma push_to_main_deploys :
  let results := fst (run_workflow Instances.calm push_to_main
                        (ci_cd Instances.calm) Instances.fresh_project) in
  github_ref push_to_main = "refs/heads/main" /\
  (executed (outcome_of "deploy" results) = true <->
   outcome_of "build-and-test" results = Some Success).
Proof.
  apply (push_deploys_when_build_passes Instances.calm push_to_main
           Instances.fresh_project); reflexivity.
Defined.

Lemma main_is_no_pull_ref ref :
  String.prefix "refs/pull/" ref = true -> ref <> "refs/heads/main".
Proof. intros H ->. discriminate H. Qed.

(** X23: a pull request starts the workflow, and with its ref under
    [refs/pull/] the deploy job is skipped and the publishing action is
    never invoked. *)
Theorem pull_request_never_deploys M ctx t :
  github_event ctx = PullRequest ->
  String.prefix "refs/pull/" (github_ref ctx) = true ->
  triggered (ci_cd M) ctx = true /\
  outcome_of "deploy" (fst (run_workflow M ctx (ci_cd M) t)) = Some Skipped /\
  forall s, ~ In (publish_action, s)
                 (calls (snd (run_workflow M ctx (ci_cd M) t))).
Proof.
  intros He Hp. apply main_is_no_pull_ref in Hp.
  split; [|split].
  - unfold triggered, ci_cd. cbn [triggers existsb]. rewrite He.
    now rewrite orb_true_r.
  - rewrite run_workflow_ci_cd. unfold on_main.
    destruct (String.eqb_spec (github_ref ctx) "refs/heads/main");
      [contradiction|].
    destruct (run_job M (build_and_test M) (initial t)) as [[] st1];
      reflexivity.
  - intros s. rewrite run_workflow_ci_cd. unfold publish_action, on_main.
    destruct (String.eqb_spec (github_ref ctx) "refs/heads/main");
      [contradiction|].
    pipe_red.
    do 6 (case_call; [|no_such_call..]).
    case_call; no_such_call.
Qed.

(** Pull request 7. *)
Lemma pull_request_7_never_deploys :
  triggered (ci_cd Instances.calm) pull_request_7 = true /\
  outcome_of "deploy"
    (fst (run_workflow Instances.calm pull_request_7 (ci_cd Instances.calm)
            Instances.fresh_project))
  = Some Skipped /\
  forall s, ~ In (publish_action, s)
                 (calls (snd (run_workflow Instances.calm pull_request_7
                                (ci_cd Instances.calm)
                                Instances.fresh_project))).
Proof.
  apply (pull_request_never_deploys Instances.calm pull_request_7
           Instances.fresh_project); reflexivity.
Defined.
